(** * Recipe management client: page scripts and their properties

    A shallow embedding of the four browser page scripts
    (login-page.js, register-page.js, recipe-page.js and the ingredient page
    script) and the properties of their workflows.

    Conventions of the embedding:
    - a JavaScript string is a [string]; its characters stand for the UTF-16
      code units below 256 (the Latin-1 range), which covers every literal of
      the scripts;
    - [sessionStorage], the [value] of the input elements and the
      [style.display] of the elements are finite maps keyed by the storage key
      or the element id;
    - an [async] workflow is a function from the client state to the client
      state; a workflow runs to completion before the next one starts;
    - [fetch] asks the backend, a deterministic transition function over an
      arbitrary backend state, and either throws or yields a response;
    - [alert], [console.error] and the assignment of [window.location.href]
      are recorded in the client state. *)

From stdpp Require Import gmap strings list pretty.
From Stdlib Require Import ZArith Ascii String.

Local Open Scope string_scope.
Local Open Scope list_scope.
Local Open Scope Z_scope.

(** ** Strings *)

Module Js.

(** The WhiteSpace and LineTerminator code units below 256: TAB, LF, VT, FF,
    CR, SP and NBSP. *)
Definition isWhiteSpace (c : ascii) : bool :=
  let n := N_of_ascii c in
  ((9 <=? n) && (n <=? 13) || (n =? 32) || (n =? 160))%N.

Fixpoint trimStart (s : string) : string :=
  match s with
  | EmptyString => EmptyString
  | String c r => if isWhiteSpace c then trimStart r else s
  end.

Fixpoint trimEnd (s : string) : string :=
  match s with
  | EmptyString => EmptyString
  | String c r =>
      match trimEnd r with
      | EmptyString => if isWhiteSpace c then EmptyString else String c EmptyString
      | r' => String c r'
      end
  end.

(** [String.prototype.trim] *)
Definition trim (s : string) : string := trimEnd (trimStart s).

(** A string made of white space only (the empty string included). *)
Fixpoint allWhiteSpace (s : string) : bool :=
  match s with
  | EmptyString => true
  | String c r => isWhiteSpace c && allWhiteSpace r
  end.

(** Truthiness of a string: only the empty string is falsy. *)
Definition truthy (s : string) : bool :=
  match s with EmptyString => false | _ => true end.

(** [String.prototype.split] with a one-character separator. *)
Fixpoint split (sep : ascii) (s : string) : list string :=
  match s with
  | EmptyString => [EmptyString]
  | String c r =>
      if Ascii.eqb c sep then EmptyString :: split sep r
      else match split sep r with
           | h :: t => String c h :: t
           | [] => [String c EmptyString]
           end
  end.

Definition hexDigit (n : N) : ascii :=
  match String.get (N.to_nat n) "0123456789ABCDEF" with
  | Some c => c
  | None => "0"%char
  end.

Definition percent (b : N) : string :=
  String "%" (String (hexDigit (b / 16)) (String (hexDigit (b mod 16)) EmptyString)).

Definition isUnreserved (c : ascii) : bool :=
  let n := N_of_ascii c in
  ((65 <=? n) && (n <=? 90) || (97 <=? n) && (n <=? 122) || (48 <=? n) && (n <=? 57)
   || (n =? 45) || (n =? 95) || (n =? 46) || (n =? 33) || (n =? 126)
   || (n =? 42) || (n =? 39) || (n =? 40) || (n =? 41))%N.

(** One code unit below 256 is kept when unreserved and otherwise replaced by
    the percent escapes of its UTF-8 bytes (one byte below 128, two above). *)
Definition encodeChar (c : ascii) : string :=
  let n := N_of_ascii c in
  if isUnreserved c then String c EmptyString
  else if (n <? 128)%N then percent n
  else percent (192 + n / 64) +:+ percent (128 + n mod 64).

Fixpoint encodeURIComponent (s : string) : string :=
  match s with
  | EmptyString => EmptyString
  | String c r => encodeChar c +:+ encodeURIComponent r
  end.

(** A JSON value, as passed to [JSON.stringify]. *)
#[warnings="-register-all"] Inductive json : Type :=
  | JNull
  | JBool (b : bool)
  | JNum (n : Z)
  | JStr (s : string)
  | JArr (l : list json)
  | JObj (fields : list (string * json)).

(** Conversion of a number to a string inside a template literal. *)
Definition numberToString (n : Z) : string := pretty n.

End Js.

(** ** Entity records and HTTP messages *)

Module Recipe.
Record t : Type := mk {
  id : Z;
  name : string;
  instructions : string;
  author : Js.json
}.
End Recipe.

Module Ingredient.
Record t : Type := mk {
  id : Z;
  name : string
}.
End Ingredient.

(** The argument of [fetch]: the URL and the fields of the options object. *)
Record Request : Type := mkRequest {
  url : string;
  method : string;
  options : list (string * string);
  headers : list (string * string);
  payload : option Js.json
}.

Record Response : Type := mkResponse {
  status : Z;
  body : string
}.

(** [fetch] either rejects (the transport failed) or resolves to a response,
    whatever its status. *)
Inductive FetchResult : Type :=
  | Threw
  | Responded (response : Response).

(** [response.ok] *)
Definition ok (response : Response) : bool :=
  (200 <=? status response) && (status response <=? 299).

(** What the scripts run against: a backend that answers each request from
    its current state, and [response.json()] on the two collections.
    [response.json()] rejects ([None]) on a body that is not JSON; a body that
    is JSON is taken to be an array of records, as the two list endpoints of
    the backend return it. A body that is JSON of another shape ([null], an
    object, an array with a [null] in it) has no counterpart here: the scripts
    would assign it to the Mirror and fail while rendering it. The properties
    below that depend on the body of a 2xx answer therefore state what they
    need of it as a premise on [parseRecipes] or [parseIngredients]. *)
Class World : Type := {
  backendState : Type;
  serve : backendState -> Request -> backendState * FetchResult;
  parseRecipes : string -> option (list Recipe.t);
  parseIngredients : string -> option (list Ingredient.t)
}.

(** ** Name-keyed resolver

    [collection.find(r => r.name === name)], as the update and delete
    workflows of both pages write it. *)
Definition findByName {A : Type} (nameOf : A -> string) (name : string) (l : list A)
  : option A :=
  find (fun r => bool_decide (nameOf r = name)) l.

(** ** Response handling

    Every workflow handles its response with a chain of [if / else if] tests
    on [response.status] (or [response.ok]) closed by an [else]. A chain lists
    the tests in source order with the kind of branch each one guards; the
    closing [else] is the generic failure branch, and the [catch] block is the
    network error branch. *)

Inductive Variant : Type :=
  | Success
  | Unauthorized
  | Forbidden
  | NotFound
  | Conflict
  | GenericFailure
  | NetworkError.

Definition chain : Type := list ((Z -> bool) * Variant).

Fixpoint dispatch (ch : chain) (st : Z) : Variant :=
  match ch with
  | [] => GenericFailure
  | (test, v) :: rest => if test st then v else dispatch rest st
  end.

Definition isOk (st : Z) : bool := (200 <=? st) && (st <=? 299).
Definition statusIs (code st : Z) : bool := st =? code.

Definition processLogin_chain : chain := [(statusIs 200, Success); (statusIs 401, Unauthorized)].
Definition processRegistration_chain : chain := [(statusIs 201, Success); (statusIs 409, Conflict)].
Definition addIngredient_chain : chain :=
  [(statusIs 201, Success); (statusIs 401, Unauthorized); (statusIs 403, Forbidden)].
Definition getIngredients_chain : chain := [(isOk, Success); (statusIs 401, Unauthorized)].
Definition deleteIngredient_chain : chain :=
  [(fun st => statusIs 204 st || statusIs 200 st, Success); (statusIs 401, Unauthorized);
   (statusIs 403, Forbidden); (statusIs 404, NotFound)].
Definition searchRecipes_chain : chain := [(isOk, Success); (statusIs 404, NotFound)].
Definition addRecipe_chain : chain := [(statusIs 201, Success); (statusIs 401, Unauthorized)].
Definition updateRecipe_chain : chain := [(isOk, Success); (statusIs 401, Unauthorized)].
Definition deleteRecipe_chain : chain :=
  [(isOk, Success); (statusIs 401, Unauthorized); (statusIs 403, Forbidden)].
Definition getRecipes_chain : chain := [(isOk, Success); (statusIs 401, Unauthorized)].
Definition processLogout_chain : chain := [(isOk, Success)].

(** ** Session store

    The session is the two keys [auth-token] and [is-admin] of the session
    storage: written by the login script, read by the page scripts, removed by
    the logout workflow. *)

Definition setItem (key value : string) (m : gmap string string) : gmap string string :=
  <[key := value]> m.
Definition getItem (key : string) (m : gmap string string) : option string :=
  m !! key.
Definition removeItem (key : string) (m : gmap string string) : gmap string string :=
  delete key m.

(** login-page.js: [setItem('auth-token', token); setItem('is-admin', isAdmin)] *)
Definition setSession (token isAdmin : string) (m : gmap string string) : gmap string string :=
  setItem "is-admin" isAdmin (setItem "auth-token" token m).

(** [sessionStorage.getItem('auth-token')] *)
Definition getToken (m : gmap string string) : option string :=
  getItem "auth-token" m.

(** recipe-page.js: [sessionStorage.getItem('is-admin') === 'true'] *)
Definition isAdmin (m : gmap string string) : bool :=
  bool_decide (getItem "is-admin" m = Some "true").

(** recipe-page.js: [removeItem('auth-token'); removeItem('is-admin')] *)
Definition clearSession (m : gmap string string) : gmap string string :=
  removeItem "is-admin" (removeItem "auth-token" m).

(** ** Client state *)

Record State `{World} : Type := mkState {
  sessionStorage : gmap string string;  (* browser session storage *)
  elements : gset string;               (* ids of the elements of the page *)
  inputs : gmap string string;          (* [value] of the input elements *)
  display : gmap string string;         (* [style.display] of the elements *)
  recipes : list Recipe.t;              (* [let recipes = []] *)
  ingredients : list Ingredient.t;      (* [let ingredients = []] *)
  recipeList : list string;             (* text of the rows of #recipe-list *)
  ingredientList : list string;         (* text of the rows of #ingredient-list *)
  alerts : list string;                 (* messages shown by [alert] *)
  console : list string;                (* labels logged by [console.error] *)
  href : option string;                 (* last [window.location.href = ...] *)
  requests : list Request;              (* requests passed to [fetch] *)
  backend : backendState
}.

Section Client.
Context `{W : World}.

Definition setStorage (m : gmap string string) (s : State) : State :=
  mkState _ m (elements s) (inputs s) (display s) (recipes s) (ingredients s)
    (recipeList s) (ingredientList s) (alerts s) (console s) (href s)
    (requests s) (backend s).

Definition setInputs (m : gmap string string) (s : State) : State :=
  mkState _ (sessionStorage s) (elements s) m (display s) (recipes s) (ingredients s)
    (recipeList s) (ingredientList s) (alerts s) (console s) (href s)
    (requests s) (backend s).

Definition setDisplay (m : gmap string string) (s : State) : State :=
  mkState _ (sessionStorage s) (elements s) (inputs s) m (recipes s) (ingredients s)
    (recipeList s) (ingredientList s) (alerts s) (console s) (href s)
    (requests s) (backend s).

Definition setRecipes (l : list Recipe.t) (s : State) : State :=
  mkState _ (sessionStorage s) (elements s) (inputs s) (display s) l (ingredients s)
    (recipeList s) (ingredientList s) (alerts s) (console s) (href s)
    (requests s) (backend s).

Definition setIngredients (l : list Ingredient.t) (s : State) : State :=
  mkState _ (sessionStorage s) (elements s) (inputs s) (display s) (recipes s) l
    (recipeList s) (ingredientList s) (alerts s) (console s) (href s)
    (requests s) (backend s).

Definition setRecipeList (l : list string) (s : State) : State :=
  mkState _ (sessionStorage s) (elements s) (inputs s) (display s) (recipes s)
    (ingredients s) l (ingredientList s) (alerts s) (console s) (href s)
    (requests s) (backend s).

Definition setIngredientList (l : list string) (s : State) : State :=
  mkState _ (sessionStorage s) (elements s) (inputs s) (display s) (recipes s)
    (ingredients s) (recipeList s) l (alerts s) (console s) (href s)
    (requests s) (backend s).

(** [alert(msg)] *)
Definition alert (msg : string) (s : State) : State :=
  mkState _ (sessionStorage s) (elements s) (inputs s) (display s) (recipes s)
    (ingredients s) (recipeList s) (ingredientList s) (alerts s ++ [msg])
    (console s) (href s) (requests s) (backend s).

(** [console.error(label, error)] *)
Definition consoleError (label : string) (s : State) : State :=
  mkState _ (sessionStorage s) (elements s) (inputs s) (display s) (recipes s)
    (ingredients s) (recipeList s) (ingredientList s) (alerts s)
    (console s ++ [label]) (href s) (requests s) (backend s).

(** [window.location.href = target] *)
Definition navigate (target : string) (s : State) : State :=
  mkState _ (sessionStorage s) (elements s) (inputs s) (display s) (recipes s)
    (ingredients s) (recipeList s) (ingredientList s) (alerts s)
    (console s) (Some target) (requests s) (backend s).

(** [await fetch(url, options)]: the request is recorded, the backend moves
    on, and the result is handed to the workflow. *)
Definition fetch (req : Request) (s : State) : FetchResult * State :=
  let (b, res) := serve (backend s) req in
  (res, mkState _ (sessionStorage s) (elements s) (inputs s) (display s) (recipes s)
          (ingredients s) (recipeList s) (ingredientList s) (alerts s)
          (console s) (href s) (requests s ++ [req]) b).

Definition BASE_URL : string := "http://localhost:8081".
Definition loginPage : string := "../login/login-page.html".
Definition recipePage : string := "../recipe/recipe-page.html".

(** [element.value] and [element.value = v] *)
Definition value (id : string) (s : State) : string :=
  default "" (inputs s !! id).
Definition setValue (id v : string) (s : State) : State :=
  setInputs (<[id := v]> (inputs s)) s.

(** [element.style.display = 'block'] *)
Definition show (id : string) (s : State) : State :=
  setDisplay (<[id := "block"]> (display s)) s.

(** ['Bearer ' + token], where [token] is [null] without a session. *)
Definition bearer (s : State) : string :=
  "Bearer " +:+ default "null" (getToken (sessionStorage s)).

(** An element of a destructured array, converted to a string by [setItem]. *)
Definition element (i : nat) (l : list string) : string :=
  default "undefined" (l !! i).

(** *** login-page.js *)

Definition loginRequest (username password : string) : Request :=
  {| url := BASE_URL +:+ "/login";
     method := "POST";
     options := [("mode", "cors"); ("cache", "no-cache"); ("credentials", "same-origin");
                 ("redirect", "follow"); ("referrerPolicy", "no-referrer")];
     headers := [("Content-Type", "application/json");
                 ("Access-Control-Allow-Origin", "*");
                 ("Access-Control-Allow-Headers", "*")];
     payload := Some (Js.JObj [("username", Js.JStr username);
                               ("password", Js.JStr password)]) |}.

(** The redirect is scheduled 500 ms after the session is stored; the model
    records it when the workflow ends. *)
Definition processLogin (s : State) : State :=
  let username := Js.trim (value "login-input" s) in
  let password := Js.trim (value "password-input" s) in
  if negb (Js.truthy username) || negb (Js.truthy password) then
    alert "Please enter both username and password" s
  else
    let (res, s) := fetch (loginRequest username password) s in
    match res with
    | Threw =>
        alert "Network error occurred. Please try again." (consoleError "Login error:" s)
    | Responded response =>
        match dispatch processLogin_chain (status response) with
        | Success =>
            let fields := Js.split " " (body response) in
            let token := element 0 fields in
            let isAdmin := element 1 fields in
            let s := setStorage (setSession token isAdmin (sessionStorage s)) s in
            let s := if decide ("logout-button" ∈ elements s)
                     then show "logout-button" s else s in
            navigate recipePage s
        | Unauthorized => alert "Incorrect login!" s
        | _ => alert "Unknown issue!" s
        end
    end.

(** *** register-page.js *)

Definition registerRequest (username email password : string) : Request :=
  {| url := BASE_URL +:+ "/register";
     method := "POST";
     options := [("mode", "cors"); ("cache", "no-cache"); ("credentials", "same-origin");
                 ("redirect", "follow"); ("referrerPolicy", "no-referrer")];
     headers := [("Content-Type", "application/json");
                 ("Access-Control-Allow-Origin", "*");
                 ("Access-Control-Allow-Headers", "*")];
     payload := Some (Js.JObj [("username", Js.JStr username);
                               ("email", Js.JStr email);
                               ("password", Js.JStr password)]) |}.

Definition processRegistration (s : State) : State :=
  let username := Js.trim (value "username-input" s) in
  let email := Js.trim (value "email-input" s) in
  let password := Js.trim (value "password-input" s) in
  let repeatPassword := Js.trim (value "repeat-password-input" s) in
  if negb (Js.truthy username) || negb (Js.truthy email)
     || negb (Js.truthy password) || negb (Js.truthy repeatPassword) then
    alert "Please fill in all fields" s
  else if bool_decide (password ≠ repeatPassword) then
    alert "Passwords do not match" s
  else
    let (res, s) := fetch (registerRequest username email password) s in
    match res with
    | Threw =>
        alert "An error occurred during registration. Please try again."
          (consoleError "Registration error:" s)
    | Responded response =>
        match dispatch processRegistration_chain (status response) with
        | Success => navigate loginPage s
        | Conflict => alert "User or email already exists" s
        | _ => alert "Registration error. Please try again." s
        end
    end.

(** *** The ingredient page script *)

Definition refreshIngredientList (s : State) : State :=
  setIngredientList (map Ingredient.name (ingredients s)) s.

Definition getIngredientsRequest (s : State) : Request :=
  {| url := BASE_URL +:+ "/ingredients";
     method := "GET";
     options := [];
     headers := [("Authorization", bearer s)];
     payload := None |}.

(** In the success branch [None] is a body on which [response.json()]
    rejects: the Mirror is not assigned and the [catch] block alerts. A JSON
    body of another shape than an array of records is outside [World]. *)
Definition getIngredients (s : State) : State :=
  let (res, s) := fetch (getIngredientsRequest s) s in
  match res with
  | Threw => alert "Error fetching ingredients" (consoleError "Get ingredients error:" s)
  | Responded response =>
      match dispatch getIngredients_chain (status response) with
      | Success =>
          match parseIngredients (body response) with
          | Some l => refreshIngredientList (setIngredients l s)
          | None =>
              alert "Error fetching ingredients" (consoleError "Get ingredients error:" s)
          end
      | Unauthorized => navigate loginPage (alert "Unauthorized: Please login" s)
      | _ => alert "Failed to fetch ingredients" s
      end
  end.

Definition addIngredientRequest (ingredientName : string) (s : State) : Request :=
  {| url := BASE_URL +:+ "/ingredients";
     method := "POST";
     options := [];
     headers := [("Content-Type", "application/json"); ("Authorization", bearer s)];
     payload := Some (Js.JObj [("name", Js.JStr ingredientName)]) |}.

Definition addIngredient (s : State) : State :=
  let ingredientName := Js.trim (value "add-ingredient-name-input" s) in
  if negb (Js.truthy ingredientName) then
    alert "Please enter an ingredient name" s
  else
    let (res, s) := fetch (addIngredientRequest ingredientName s) s in
    match res with
    | Threw => alert "Error adding ingredient" (consoleError "Add ingredient error:" s)
    | Responded response =>
        match dispatch addIngredient_chain (status response) with
        | Success =>
            let s := setValue "add-ingredient-name-input" "" s in
            let s := getIngredients s in
            refreshIngredientList s
        | Unauthorized => alert "Unauthorized: Please login again" s
        | Forbidden => alert "Forbidden: Admin access required" s
        | _ => alert "Failed to add ingredient" s
        end
    end.

Definition deleteIngredientRequest (ingredient : Ingredient.t) (s : State) : Request :=
  {| url := BASE_URL +:+ "/ingredients/" +:+ Js.numberToString (Ingredient.id ingredient);
     method := "DELETE";
     options := [];
     headers := [("Authorization", bearer s)];
     payload := None |}.

Definition deleteIngredient (s : State) : State :=
  let ingredientName := Js.trim (value "delete-ingredient-name-input" s) in
  if negb (Js.truthy ingredientName) then
    alert "Please enter an ingredient name to delete" s
  else
    match findByName Ingredient.name ingredientName (ingredients s) with
    | None => alert "Ingredient not found" s
    | Some ingredient =>
        let (res, s) := fetch (deleteIngredientRequest ingredient s) s in
        match res with
        | Threw =>
            alert "Error deleting ingredient" (consoleError "Delete ingredient error:" s)
        | Responded response =>
            match dispatch deleteIngredient_chain (status response) with
            | Success =>
                let s := setValue "delete-ingredient-name-input" "" s in
                let s := getIngredients s in
                refreshIngredientList s
            | Unauthorized => alert "Unauthorized: Please login again" s
            | Forbidden => alert "Forbidden: Admin access required" s
            | NotFound => alert "Ingredient not found" s
            | _ => alert "Failed to delete ingredient" s
            end
        end
    end.

(** Top level of the script and its [DOMContentLoaded] handler. *)
Definition ingredientPageLoad (s : State) : State :=
  getIngredients (setIngredients [] s).

(** *** recipe-page.js *)

Definition refreshRecipeList (s : State) : State :=
  setRecipeList
    (map (fun recipe => Recipe.name recipe +:+ ": " +:+ Recipe.instructions recipe)
         (recipes s)) s.

Definition getRecipesRequest (s : State) : Request :=
  {| url := BASE_URL +:+ "/recipes";
     method := "GET";
     options := [];
     headers := [("Authorization", bearer s)];
     payload := None |}.

(** As in [getIngredients], [None] in the success branch is a body on which
    [response.json()] rejects. *)
Definition getRecipes (s : State) : State :=
  let (res, s) := fetch (getRecipesRequest s) s in
  match res with
  | Threw => alert "Error fetching recipes" (consoleError "Get recipes error:" s)
  | Responded response =>
      match dispatch getRecipes_chain (status response) with
      | Success =>
          match parseRecipes (body response) with
          | Some l => refreshRecipeList (setRecipes l s)
          | None => alert "Error fetching recipes" (consoleError "Get recipes error:" s)
          end
      | Unauthorized => navigate loginPage (alert "Unauthorized: Please login" s)
      | _ => alert "Failed to fetch recipes" s
      end
  end.

Definition searchRecipesRequest (searchTerm : string) (s : State) : Request :=
  {| url := BASE_URL +:+ "/recipes?name=" +:+ Js.encodeURIComponent searchTerm;
     method := "GET";
     options := [];
     headers := [("Authorization", bearer s); ("Content-Type", "application/json")];
     payload := None |}.

Definition searchRecipes (s : State) : State :=
  let searchTerm := Js.trim (value "search-input" s) in
  if negb (Js.truthy searchTerm) then
    getRecipes s
  else
    let (res, s) := fetch (searchRecipesRequest searchTerm s) s in
    match res with
    | Threw => alert "Failed to search recipes" (consoleError "Search error:" s)
    | Responded response =>
        match dispatch searchRecipes_chain (status response) with
        | Success =>
            match parseRecipes (body response) with
            | Some l => refreshRecipeList (setRecipes l s)
            | None => alert "Failed to search recipes" (consoleError "Search error:" s)
            end
        | NotFound => refreshRecipeList (setRecipes [] s)
        | _ => alert "Error searching recipes" s
        end
    end.

Definition addRecipeRequest (name instructions : string) (s : State) : Request :=
  {| url := BASE_URL +:+ "/recipes";
     method := "POST";
     options := [];
     headers := [("Authorization", bearer s); ("Content-Type", "application/json")];
     payload := Some (Js.JObj [("name", Js.JStr name);
                               ("instructions", Js.JStr instructions)]) |}.

Definition addRecipe (s : State) : State :=
  let name := Js.trim (value "add-recipe-name-input" s) in
  let instructions := Js.trim (value "add-recipe-instructions-input" s) in
  if negb (Js.truthy name) || negb (Js.truthy instructions) then
    alert "Please provide both recipe name and instructions" s
  else
    let (res, s) := fetch (addRecipeRequest name instructions s) s in
    match res with
    | Threw => alert "Error adding recipe" (consoleError "Add recipe error:" s)
    | Responded response =>
        match dispatch addRecipe_chain (status response) with
        | Success =>
            let s := setValue "add-recipe-name-input" "" s in
            let s := setValue "add-recipe-instructions-input" "" s in
            getRecipes s
        | Unauthorized => alert "Unauthorized: Please login again" s
        | _ => alert "Failed to add recipe" s
        end
    end.

Definition updateRecipeRequest (recipe : Recipe.t) (instructions : string) (s : State)
  : Request :=
  {| url := BASE_URL +:+ "/recipes/" +:+ Js.numberToString (Recipe.id recipe);
     method := "PUT";
     options := [];
     headers := [("Authorization", bearer s); ("Content-Type", "application/json")];
     payload := Some (Js.JObj [("id", Js.JNum (Recipe.id recipe));
                               ("name", Js.JStr (Recipe.name recipe));
                               ("instructions", Js.JStr instructions);
                               ("author", Recipe.author recipe)]) |}.

Definition updateRecipe (s : State) : State :=
  let name := Js.trim (value "update-recipe-name-input" s) in
  let instructions := Js.trim (value "update-recipe-instructions-input" s) in
  if negb (Js.truthy name) || negb (Js.truthy instructions) then
    alert "Please provide both recipe name and new instructions" s
  else
    match findByName Recipe.name name (recipes s) with
    | None => alert "Recipe not found" s
    | Some recipe =>
        let (res, s) := fetch (updateRecipeRequest recipe instructions s) s in
        match res with
        | Threw => alert "Error updating recipe" (consoleError "Update recipe error:" s)
        | Responded response =>
            match dispatch updateRecipe_chain (status response) with
            | Success =>
                let s := setValue "update-recipe-name-input" "" s in
                let s := setValue "update-recipe-instructions-input" "" s in
                getRecipes s
            | Unauthorized => alert "Unauthorized: Please login again" s
            | _ => alert "Failed to update recipe" s
            end
        end
    end.

Definition deleteRecipeRequest (recipe : Recipe.t) (s : State) : Request :=
  {| url := BASE_URL +:+ "/recipes/" +:+ Js.numberToString (Recipe.id recipe);
     method := "DELETE";
     options := [];
     headers := [("Authorization", bearer s)];
     payload := None |}.

Definition deleteRecipe (s : State) : State :=
  let name := Js.trim (value "delete-recipe-name-input" s) in
  if negb (Js.truthy name) then
    alert "Please provide a recipe name to delete" s
  else
    match findByName Recipe.name name (recipes s) with
    | None => alert "Recipe not found" s
    | Some recipe =>
        let (res, s) := fetch (deleteRecipeRequest recipe s) s in
        match res with
        | Threw => alert "Error deleting recipe" (consoleError "Delete recipe error:" s)
        | Responded response =>
            match dispatch deleteRecipe_chain (status response) with
            | Success =>
                let s := setValue "delete-recipe-name-input" "" s in
                getRecipes s
            | Unauthorized => alert "Unauthorized: Please login again" s
            | Forbidden => alert "Forbidden: Admin access required" s
            | _ => alert "Failed to delete recipe" s
            end
        end
    end.

Definition processLogoutRequest (s : State) : Request :=
  {| url := BASE_URL +:+ "/logout";
     method := "POST";
     options := [];
     headers := [("Authorization", bearer s)];
     payload := None |}.

Definition processLogout (s : State) : State :=
  let (res, s) := fetch (processLogoutRequest s) s in
  match res with
  | Threw => alert "Error during logout" (consoleError "Logout error:" s)
  | Responded response =>
      match dispatch processLogout_chain (status response) with
      | Success =>
          let s := setStorage (clearSession (sessionStorage s)) s in
          navigate loginPage s
      | _ => alert "Logout failed" s
      end
  end.

(** Top level of the script and its [DOMContentLoaded] handler. *)
Definition recipePageLoad (s : State) : State :=
  let s := setRecipes [] s in
  let s := if Js.truthy (default "" (getToken (sessionStorage s)))
           then show "logout-button" s else s in
  let s := if isAdmin (sessionStorage s) then show "admin-link" s else s in
  getRecipes s.

(** ** Workflows *)

Inductive Workflow : Type :=
  | ProcessLogin
  | ProcessRegistration
  | AddIngredient
  | GetIngredients
  | DeleteIngredient
  | SearchRecipes
  | AddRecipe
  | UpdateRecipe
  | DeleteRecipe
  | GetRecipes
  | ProcessLogout.

Definition run (w : Workflow) : State -> State :=
  match w with
  | ProcessLogin => processLogin
  | ProcessRegistration => processRegistration
  | AddIngredient => addIngredient
  | GetIngredients => getIngredients
  | DeleteIngredient => deleteIngredient
  | SearchRecipes => searchRecipes
  | AddRecipe => addRecipe
  | UpdateRecipe => updateRecipe
  | DeleteRecipe => deleteRecipe
  | GetRecipes => getRecipes
  | ProcessLogout => processLogout
  end.

Definition chainOf (w : Workflow) : chain :=
  match w with
  | ProcessLogin => processLogin_chain
  | ProcessRegistration => processRegistration_chain
  | AddIngredient => addIngredient_chain
  | GetIngredients => getIngredients_chain
  | DeleteIngredient => deleteIngredient_chain
  | SearchRecipes => searchRecipes_chain
  | AddRecipe => addRecipe_chain
  | UpdateRecipe => updateRecipe_chain
  | DeleteRecipe => deleteRecipe_chain
  | GetRecipes => getRecipes_chain
  | ProcessLogout => processLogout_chain
  end.

(** The workflows of the recipe page and of the ingredient page. *)
Definition onProtectedPage (w : Workflow) : bool :=
  match w with
  | ProcessLogin | ProcessRegistration => false
  | _ => true
  end.

(** The request a workflow sends first, read off the request log: [None] when
    the workflow stops before it calls [fetch]. *)
Definition issued (w : Workflow) (s : State) : option Request :=
  requests (run w s) !! List.length (requests s).

(** What the backend answers to that request. *)
Definition answer (w : Workflow) (s : State) : option FetchResult :=
  (fun req => (serve (backend s) req).2) <$> issued w s.

(** The search workflow with an empty term hands over to [getRecipes], whose
    response handling then applies. *)
Definition delegate (w : Workflow) (s : State) : Workflow :=
  match w with
  | SearchRecipes =>
      if negb (Js.truthy (Js.trim (value "search-input" s))) then GetRecipes
      else SearchRecipes
  | _ => w
  end.

(** The request each workflow builds from the form and the Mirror, spelled
    out; [issued] is proved equal to it. *)
Definition firstRequest (w : Workflow) (s : State) : option Request :=
  match w with
  | ProcessLogin =>
      let username := Js.trim (value "login-input" s) in
      let password := Js.trim (value "password-input" s) in
      if negb (Js.truthy username) || negb (Js.truthy password) then None
      else Some (loginRequest username password)
  | ProcessRegistration =>
      let username := Js.trim (value "username-input" s) in
      let email := Js.trim (value "email-input" s) in
      let password := Js.trim (value "password-input" s) in
      let repeatPassword := Js.trim (value "repeat-password-input" s) in
      if negb (Js.truthy username) || negb (Js.truthy email)
         || negb (Js.truthy password) || negb (Js.truthy repeatPassword) then None
      else if bool_decide (password ≠ repeatPassword) then None
      else Some (registerRequest username email password)
  | AddIngredient =>
      let ingredientName := Js.trim (value "add-ingredient-name-input" s) in
      if negb (Js.truthy ingredientName) then None
      else Some (addIngredientRequest ingredientName s)
  | GetIngredients => Some (getIngredientsRequest s)
  | DeleteIngredient =>
      let ingredientName := Js.trim (value "delete-ingredient-name-input" s) in
      if negb (Js.truthy ingredientName) then None
      else (fun i => deleteIngredientRequest i s)
             <$> findByName Ingredient.name ingredientName (ingredients s)
  | SearchRecipes =>
      let searchTerm := Js.trim (value "search-input" s) in
      if negb (Js.truthy searchTerm) then Some (getRecipesRequest s)
      else Some (searchRecipesRequest searchTerm s)
  | AddRecipe =>
      let name := Js.trim (value "add-recipe-name-input" s) in
      let instructions := Js.trim (value "add-recipe-instructions-input" s) in
      if negb (Js.truthy name) || negb (Js.truthy instructions) then None
      else Some (addRecipeRequest name instructions s)
  | UpdateRecipe =>
      let name := Js.trim (value "update-recipe-name-input" s) in
      let instructions := Js.trim (value "update-recipe-instructions-input" s) in
      if negb (Js.truthy name) || negb (Js.truthy instructions) then None
      else (fun r => updateRecipeRequest r instructions s)
             <$> findByName Recipe.name name (recipes s)
  | DeleteRecipe =>
      let name := Js.trim (value "delete-recipe-name-input" s) in
      if negb (Js.truthy name) then None
      else (fun r => deleteRecipeRequest r s)
             <$> findByName Recipe.name name (recipes s)
  | GetRecipes => Some (getRecipesRequest s)
  | ProcessLogout => Some (processLogoutRequest s)
  end.

(** The branch that handles the answer to the first request: the branch of
    the chain selected by the status, or the [catch] block when [fetch] throws
    or [response.json()] rejects in the success branch. [None] when no request
    is sent. *)
Definition rejectsBody (w : Workflow) (response : Response) : bool :=
  match w with
  | GetRecipes | SearchRecipes =>
      match parseRecipes (body response) with None => true | Some _ => false end
  | GetIngredients =>
      match parseIngredients (body response) with None => true | Some _ => false end
  | _ => false
  end.

Definition outcome (w : Workflow) (s : State) : option Variant :=
  match answer w s with
  | None => None
  | Some Threw => Some NetworkError
  | Some (Responded response) =>
      match dispatch (chainOf (delegate w s)) (status response) with
      | Success =>
          if rejectsBody (delegate w s) response then Some NetworkError else Some Success
      | v => Some v
      end
  end.

(** A failed run of a workflow: it stops before any request (validation
    error, or the resolver finds no record), or the answer is handled by a
    failure branch or by the [catch] block. A 404 answer to a search is not
    among them: the search workflow takes it as an empty result. *)
Definition failed (w : Workflow) (s : State) : bool :=
  match outcome w s with
  | None => true
  | Some Success => false
  | Some NotFound => match delegate w s with SearchRecipes => false | _ => true end
  | Some _ => true
  end.

(** The messages of the closing [else] branches. *)
Definition genericMessage (w : Workflow) : string :=
  match w with
  | ProcessLogin => "Unknown issue!"
  | ProcessRegistration => "Registration error. Please try again."
  | AddIngredient => "Failed to add ingredient"
  | GetIngredients => "Failed to fetch ingredients"
  | DeleteIngredient => "Failed to delete ingredient"
  | SearchRecipes => "Error searching recipes"
  | AddRecipe => "Failed to add recipe"
  | UpdateRecipe => "Failed to update recipe"
  | DeleteRecipe => "Failed to delete recipe"
  | GetRecipes => "Failed to fetch recipes"
  | ProcessLogout => "Logout failed"
  end.

(** The messages and the console labels of the [catch] blocks. *)
Definition catchMessage (w : Workflow) : string :=
  match w with
  | ProcessLogin => "Network error occurred. Please try again."
  | ProcessRegistration => "An error occurred during registration. Please try again."
  | AddIngredient => "Error adding ingredient"
  | GetIngredients => "Error fetching ingredients"
  | DeleteIngredient => "Error deleting ingredient"
  | SearchRecipes => "Failed to search recipes"
  | AddRecipe => "Error adding recipe"
  | UpdateRecipe => "Error updating recipe"
  | DeleteRecipe => "Error deleting recipe"
  | GetRecipes => "Error fetching recipes"
  | ProcessLogout => "Error during logout"
  end.

Definition catchLabel (w : Workflow) : string :=
  match w with
  | ProcessLogin => "Login error:"
  | ProcessRegistration => "Registration error:"
  | AddIngredient => "Add ingredient error:"
  | GetIngredients => "Get ingredients error:"
  | DeleteIngredient => "Delete ingredient error:"
  | SearchRecipes => "Search error:"
  | AddRecipe => "Add recipe error:"
  | UpdateRecipe => "Update recipe error:"
  | DeleteRecipe => "Delete recipe error:"
  | GetRecipes => "Get recipes error:"
  | ProcessLogout => "Logout error:"
  end.

Definition hasForbiddenBranch (w : Workflow) : bool :=
  match w with
  | AddIngredient | DeleteIngredient | DeleteRecipe => true
  | _ => false
  end.

Definition hasConflictBranch (w : Workflow) : bool :=
  match w with
  | ProcessRegistration => true
  | _ => false
  end.

(** The message a workflow shows for a kind of failure: the message of its
    branch for that kind, or of its closing [else] when it has none. *)
Definition message (w : Workflow) (v : Variant) : string :=
  match v with
  | NetworkError => catchMessage w
  | Unauthorized =>
      match w with
      | ProcessLogin => "Incorrect login!"
      | AddIngredient | DeleteIngredient | AddRecipe | UpdateRecipe | DeleteRecipe =>
          "Unauthorized: Please login again"
      | GetIngredients | GetRecipes => "Unauthorized: Please login"
      | _ => genericMessage w
      end
  | Forbidden =>
      if hasForbiddenBranch w then "Forbidden: Admin access required"
      else genericMessage w
  | NotFound =>
      match w with
      | DeleteIngredient => "Ingredient not found"
      | _ => genericMessage w
      end
  | Conflict =>
      if hasConflictBranch w then "User or email already exists"
      else genericMessage w
  | _ => genericMessage w
  end.

(** The failures after which the page is sent to the login page: a 401 answer
    to the fetch of the whole collection. *)
Definition redirects (w : Workflow) (v : Variant) : bool :=
  match v, w with
  | Unauthorized, (GetRecipes | GetIngredients) => true
  | _, _ => false
  end.

(** What a failure branch does to the state left by [fetch]. *)
Definition settle (w : Workflow) (v : Variant) (s : State) : State :=
  let s := match v with NetworkError => consoleError (catchLabel w) s | _ => s end in
  let s := alert (message w v) s in
  if redirects w v then navigate loginPage s else s.

(** ** Client steps and reachable states *)

Inductive Event : Type :=
  | Click (w : Workflow)              (* the button of a workflow *)
  | Input (id text : string)          (* the user edits an input element *)
  | LoadRecipePage
  | LoadIngredientPage.

Definition step (e : Event) (s : State) : State :=
  match e with
  | Click w => run w s
  | Input id text => setValue id text s
  | LoadRecipePage => recipePageLoad s
  | LoadIngredientPage => ingredientPageLoad s
  end.

(** A browsing session starts with an empty session storage. *)
Inductive reachable : State -> Prop :=
  | reachable_start : forall s, sessionStorage s = ∅ -> reachable s
  | reachable_step : forall e s, reachable s -> reachable (step e s).

(** Every 200 answer to a login request starts with a non-empty token, as in
    ["token123 true"]. *)
Definition loginBodiesCarryToken : Prop :=
  forall b username password b' response,
    serve b (loginRequest username password) = (b', Responded response) ->
    status response = 200 ->
    element 0 (Js.split " " (body response)) <> "".

End Client.

(** ** The seven-way classification of the REST client, in the words of the
    design: 2xx is success, 401, 403, 404 and 409 have a variant each, every
    other status is a generic failure. Kept apart from the chains above, which
    are the scripts' own, to compare the two. *)
Definition specClassify (st : Z) : Variant :=
  if (200 <=? st) && (st <=? 299) then Success
  else if st =? 401 then Unauthorized
  else if st =? 403 then Forbidden
  else if st =? 404 then NotFound
  else if st =? 409 then Conflict
  else GenericFailure.

(** Branch [i] of a chain is taken on a status when its test is the first one
    that holds; the position after the last test is the closing [else]. *)
Definition fires (ch : chain) (st : Z) (i : nat) : Prop :=
  (forall j test v, (j < i)%nat -> ch !! j = Some (test, v) -> test st = false) /\
  match ch !! i with
  | Some (test, _) => test st = true
  | None => i = List.length ch
  end.

Definition branchVariant (ch : chain) (i : nat) : Variant :=
  match ch !! i with
  | Some (_, v) => v
  | None => GenericFailure
  end.

(** ** The add workflows of the two pages *)







(** ** Concrete worlds *)

(** A backend that plays back a script of results, one per request, and
    throws when the script is over. *)
Definition scriptedServe (script : list FetchResult) (req : Request)
  : list FetchResult * FetchResult :=
  match script with
  | [] => ([], Threw)
  | res :: rest => (rest, res)
  end.

Definition pancakes : Recipe.t :=
  Recipe.mk 1 "Pancakes" "Mix and fry" (Js.JObj [("id", Js.JNum 7); ("username", Js.JStr "alice")]).
Definition soup : Recipe.t :=
  Recipe.mk 2 "Soup" "Boil" (Js.JObj [("id", Js.JNum 8); ("username", Js.JStr "bob")]).
Definition soup' : Recipe.t :=
  Recipe.mk 3 "Soup" "Simmer" (Js.JObj [("id", Js.JNum 7); ("username", Js.JStr "alice")]).
Definition salt : Ingredient.t := Ingredient.mk 1 "Salt".

(** Bodies are named rather than spelled out: [sampleRecipes] parses the three
    bodies the examples use. *)
Definition sampleRecipes (body : string) : option (list Recipe.t) :=
  if bool_decide (body = "[]") then Some []
  else if bool_decide (body = "[pancakes]") then Some [pancakes]
  else if bool_decide (body = "[pancakes,soup]") then Some [pancakes; soup]
  else None.

Definition sampleIngredients (body : string) : option (list Ingredient.t) :=
  if bool_decide (body = "[]") then Some []
  else if bool_decide (body = "[salt]") then Some [salt]
  else None.

Definition scripted : World :=
  {| backendState := list FetchResult;
     serve := scriptedServe;
     parseRecipes := sampleRecipes;
     parseIngredients := sampleIngredients |}.

(** A backend without state: it accepts every login with the same token and
    answers 401 to everything else. *)
Definition loginOnlyServe (b : unit) (req : Request) : unit * FetchResult :=
  if bool_decide (url req = "http://localhost:8081/login")
  then (b, Responded (mkResponse 200 "token123 true"))
  else (b, Responded (mkResponse 401 "")).

Definition loginOnly : World :=
  {| backendState := unit;
     serve := loginOnlyServe;
     parseRecipes := sampleRecipes;
     parseIngredients := sampleIngredients |}.

(** A page with the given session storage, input values, recipes and backend
    state, and nothing shown or logged yet. *)
Definition page `{World} (storage inputs : gmap string string) (l : list Recipe.t)
    (b : backendState) : State :=
  mkState _ storage ∅ inputs ∅ l [] [] [] [] [] None [] b.

(** A script with one answer of the given status and an empty body. *)
Definition answered (code : Z) : list FetchResult := [Responded (mkResponse code "")].

(** The script of an accepted creation followed by the collection. *)
Definition createdThen (body : string) : list FetchResult :=
  [Responded (mkResponse 201 ""); Responded (mkResponse 200 body)].

(** *** Sample states *)

(** The login page with both fields filled, against a backend that answers
    200 with the given body. *)
Definition loginPageWith (body : string) : @State scripted :=
  @page scripted ∅ {["login-input" := "alice"; "password-input" := "secret"]} []
    [Responded (mkResponse 200 body)].

(** The same page against the backend that accepts every login. *)
Definition loginPageAccepted : @State loginOnly :=
  @page loginOnly ∅ {["login-input" := "alice"; "password-input" := "secret"]} [] tt.

(** The recipe page of a logged-in user who is not an administrator, with two
    recipes in the Mirror and every form filled, against a scripted backend. *)
Definition recipeForms : gmap string string :=
  {[ "add-recipe-name-input" := " Soup ";
     "add-recipe-instructions-input" := "Boil";
     "update-recipe-name-input" := "Pancakes";
     "update-recipe-instructions-input" := " Flip twice";
     "delete-recipe-name-input" := "Pancakes";
     "search-input" := "Sou" ]}.

Definition recipePageWith (script : list FetchResult) : @State scripted :=
  @mkState scripted {["auth-token" := "abc"; "is-admin" := "false"]} ∅ recipeForms ∅
    [pancakes] [] ["Pancakes: Mix and fry"] [] [] [] None [] script.

(** The same page with a search field that holds white space only. *)
Definition recipePageBlankSearch (script : list FetchResult) : @State scripted :=
  @mkState scripted {["auth-token" := "abc"; "is-admin" := "false"]} ∅
    (<["search-input" := "  	"]> recipeForms) ∅
    [pancakes] [] ["Pancakes: Mix and fry"] [] [] [] None [] script.

(** The ingredient page of the same user, with one ingredient in the Mirror. *)
Definition ingredientPageWith (script : list FetchResult) : @State scripted :=
  @mkState scripted {["auth-token" := "abc"; "is-admin" := "false"]} ∅
    {["add-ingredient-name-input" := "Salt"; "delete-ingredient-name-input" := "Salt"]} ∅
    [] [salt] [] ["Salt"] [] [] None [] script.

(** ** Forms of the workflows *)

(** The inputs a workflow reads, trims and requires to be non-empty. *)
Definition requiredInputs (w : Workflow) : list string :=
  match w with
  | ProcessLogin => ["login-input"; "password-input"]
  | ProcessRegistration =>
      ["username-input"; "email-input"; "password-input"; "repeat-password-input"]
  | AddIngredient => ["add-ingredient-name-input"]
  | DeleteIngredient => ["delete-ingredient-name-input"]
  | AddRecipe => ["add-recipe-name-input"; "add-recipe-instructions-input"]
  | UpdateRecipe => ["update-recipe-name-input"; "update-recipe-instructions-input"]
  | DeleteRecipe => ["delete-recipe-name-input"]
  | SearchRecipes | GetIngredients | GetRecipes | ProcessLogout => []
  end.

(** The message of the validation of a workflow. *)
Definition validationMessage (w : Workflow) : string :=
  match w with
  | ProcessLogin => "Please enter both username and password"
  | ProcessRegistration => "Please fill in all fields"
  | AddIngredient => "Please enter an ingredient name"
  | DeleteIngredient => "Please enter an ingredient name to delete"
  | AddRecipe => "Please provide both recipe name and instructions"
  | UpdateRecipe => "Please provide both recipe name and new instructions"
  | DeleteRecipe => "Please provide a recipe name to delete"
  | SearchRecipes | GetIngredients | GetRecipes | ProcessLogout => ""
  end.

(** The inputs a workflow sets to the empty string when its request
    succeeds. *)
Definition clearedInputs (w : Workflow) : list string :=
  match w with
  | AddIngredient => ["add-ingredient-name-input"]
  | DeleteIngredient => ["delete-ingredient-name-input"]
  | AddRecipe => ["add-recipe-name-input"; "add-recipe-instructions-input"]
  | UpdateRecipe => ["update-recipe-name-input"; "update-recipe-instructions-input"]
  | DeleteRecipe => ["delete-recipe-name-input"]
  | _ => []
  end.

(** The workflows that change the remote collection and fetch it again. *)
Definition isMutation (w : Workflow) : bool :=
  match w with
  | AddIngredient | DeleteIngredient | AddRecipe | UpdateRecipe | DeleteRecipe => true
  | _ => false
  end.

(** The workflows that resolve a name in the Mirror before they send. *)
Definition resolvesName (w : Workflow) : bool :=
  match w with
  | DeleteIngredient | UpdateRecipe | DeleteRecipe => true
  | _ => false
  end.

(** The fetch of the collection of the page of a workflow. *)
Definition collectionRequest `{World} (w : Workflow) (s : State) : Request :=
  match w with
  | AddIngredient | GetIngredients | DeleteIngredient => getIngredientsRequest s
  | _ => getRecipesRequest s
  end.

(** The names in the Mirror a resolving workflow looks the name up in, and
    the name it looks up. *)
Definition resolverNames `{World} (w : Workflow) (s : State) : list string :=
  match w with
  | DeleteIngredient => map Ingredient.name (ingredients s)
  | _ => map Recipe.name (recipes s)
  end.

Definition resolvedName `{World} (w : Workflow) (s : State) : string :=
  match w with
  | DeleteIngredient => Js.trim (value "delete-ingredient-name-input" s)
  | UpdateRecipe => Js.trim (value "update-recipe-name-input" s)
  | _ => Js.trim (value "delete-recipe-name-input" s)
  end.

Definition notFoundMessage (w : Workflow) : string :=
  match w with
  | DeleteIngredient => "Ingredient not found"
  | _ => "Recipe not found"
  end.

(** The request of a resolving workflow for a record of the Mirror, and the
    path of the record on the backend. *)
Definition recordPath (w : Workflow) (id : Z) : string :=
  match w with
  | DeleteIngredient => "http://localhost:8081/ingredients/" +:+ Js.numberToString id
  | _ => "http://localhost:8081/recipes/" +:+ Js.numberToString id
  end.

(** The characters [encodeURIComponent] can produce. *)
Definition isUrlSafe (c : ascii) : bool :=
  Js.isUnreserved c || Ascii.eqb c "%".

(** The first request was answered and handled by the success branch. *)
Definition succeeded `{World} (w : Workflow) (s : State) : bool :=
  match outcome w s with
  | Some Success => true
  | _ => false
  end.

(** The rows of the two lists show the two Mirrors. *)
Definition inSync `{World} (s : State) : Prop :=
  recipeList s
    = map (fun recipe => Recipe.name recipe +:+ ": " +:+ Recipe.instructions recipe)
          (recipes s) /\
  ingredientList s = map Ingredient.name (ingredients s).

(** Membership of a character in a string. *)
Fixpoint occurs (c : ascii) (s : string) : bool :=
  match s with
  | EmptyString => false
  | String c' r => Ascii.eqb c c' || occurs c r
  end.

(** Every character of a string passes a test. *)
Fixpoint allChars (test : ascii -> bool) (s : string) : bool :=
  match s with
  | EmptyString => true
  | String c r => test c && allChars test r
  end.

(** The statuses the success branch of a workflow takes. *)
Definition successStatus (w : Workflow) (st : Z) : Prop :=
  match w with
  | ProcessLogin => st = 200
  | ProcessRegistration | AddIngredient | AddRecipe => st = 201
  | DeleteIngredient => st = 200 \/ st = 204
  | _ => 200 <= st <= 299
  end.

(** *** More sample states *)

Definition pepper : Ingredient.t := Ingredient.mk 4 "Pepper".
Definition salt' : Ingredient.t := Ingredient.mk 5 "Salt".

(** The login page against a scripted backend, with the given values. *)
Definition loginPageTyped (forms : gmap string string) (script : list FetchResult)
  : @State scripted :=
  @page scripted ∅ forms [] script.

Definition loginForm : gmap string string :=
  {["login-input" := " alice "; "password-input" := "secret"]}.


(** The recipe page with the given Mirror and one name typed in the delete
    form and in the update form. *)
Definition recipePageNaming (name : string) (l : list Recipe.t) (script : list FetchResult)
  : @State scripted :=
  @mkState scripted {["auth-token" := "abc"; "is-admin" := "true"]} ∅
    {["delete-recipe-name-input" := name; "update-recipe-name-input" := name;
      "update-recipe-instructions-input" := "Stir"]} ∅
    l [] (map (fun r => Recipe.name r +:+ ": " +:+ Recipe.instructions r) l) []
    [] [] None [] script.

(** The ingredient page with three ingredients, two of them of one name. *)
Definition ingredientPageDuplicates (script : list FetchResult) : @State scripted :=
  @mkState scripted {["auth-token" := "abc"; "is-admin" := "true"]} ∅
    {["delete-ingredient-name-input" := "Salt "]} ∅
    [] [pepper; salt; salt'] [] ["Pepper"; "Salt"; "Salt"] [] [] None [] script.

(** ** Aborted runs, add requests, well-formed collections *)

(** A run that is aborted: the workflow stops before any request (validation
    error, or the resolver finds no record), the request throws, or the
    answer takes a failure branch of the chain. A 404 answer to a search is
    not among them, and neither is any answer that takes the success branch,
    whatever its body. *)
Definition aborted `{World} (w : Workflow) (s : State) : bool :=
  match answer w s with
  | None => true
  | Some Threw => true
  | Some (Responded response) =>
      match dispatch (chainOf (delegate w s)) (status response) with
      | Success => false
      | NotFound => match delegate w s with SearchRecipes => false | _ => true end
      | _ => true
      end
  end.


(** The workflows with a test for 401, and those with a test for 404. *)
Definition hasUnauthorizedBranch (w : Workflow) : bool :=
  match w with
  | ProcessLogin | AddIngredient | GetIngredients | DeleteIngredient
  | AddRecipe | UpdateRecipe | DeleteRecipe | GetRecipes => true
  | _ => false
  end.

Definition hasNotFoundBranch (w : Workflow) : bool :=
  match w with
  | DeleteIngredient | SearchRecipes => true
  | _ => false
  end.

(** The requests that fetch a collection. *)
Definition fetchesRecipes (req : Request) : Prop :=
  method req = "GET" /\
  exists rest, url req = "http://localhost:8081/recipes" +:+ rest.

Definition fetchesIngredients (req : Request) : Prop :=
  method req = "GET" /\ url req = "http://localhost:8081/ingredients".

(** The backend answers the fetch of a collection, when it answers 2xx, with
    an array of records. *)
Definition collectionBodiesAreRecords `{World} : Prop :=
  forall b req b' response,
    serve b req = (b', Responded response) ->
    ok response = true ->
    (fetchesRecipes req -> parseRecipes (body response) <> None) /\
    (fetchesIngredients req -> parseIngredients (body response) <> None).

(** A backend without state that answers every GET with a collection of one
    record and everything else with 201. *)
Definition pantryServe (b : unit) (req : Request) : unit * FetchResult :=
  if bool_decide (method req = "GET") then
    if bool_decide (url req = "http://localhost:8081/ingredients")
    then (b, Responded (mkResponse 200 "[salt]"))
    else (b, Responded (mkResponse 200 "[pancakes]"))
  else (b, Responded (mkResponse 201 "")).

Definition pantry : World :=
  {| backendState := unit;
     serve := pantryServe;
     parseRecipes := sampleRecipes;
     parseIngredients := sampleIngredients |}.

(** The ingredient page and the recipe page against that backend. *)
Definition pantryIngredientPage : @State pantry :=
  @mkState pantry {["auth-token" := "abc"; "is-admin" := "true"]} ∅
    {["add-ingredient-name-input" := "Salt"]} ∅
    [] [] [] [] [] [] None [] tt.

Definition pantryRecipePage : @State pantry :=
  @mkState pantry {["auth-token" := "abc"; "is-admin" := "true"]} ∅
    {["add-recipe-name-input" := "Pancakes";
      "add-recipe-instructions-input" := "Mix and fry"]} ∅
    [] [] [] [] [] [] None [] tt.

(** * Properties *)

(** ** Strings *)

Example trim_inner_space : Js.trim "  a b	 " = "a b".
Proof. reflexivity. Qed.

Example split_token_flag : Js.split " " "token123 true" = ["token123"; "true"].
Proof. reflexivity. Qed.

Example split_empty : Js.split " " "" = [""].
Proof. reflexivity. Qed.

Example split_leading_space : Js.split " " " x" = [""; "x"].
Proof. reflexivity. Qed.

Example split_double_space : Js.split " " "a  b " = ["a"; ""; "b"; ""].
Proof. reflexivity. Qed.

Example encode_reserved : Js.encodeURIComponent "a b&c" = "a%20b%26c".
Proof. reflexivity. Qed.

Lemma trimStart_allWhiteSpace (s : string) :
  Js.allWhiteSpace s = true -> Js.trimStart s = "".
Proof.
  induction s as [|c r IH]; simpl; [done|].
  destruct (Js.isWhiteSpace c); simpl; [exact IH | discriminate].
Qed.

Lemma trim_allWhiteSpace (s : string) :
  Js.allWhiteSpace s = true -> Js.trim s = "".
Proof. intros H. unfold Js.trim. by rewrite trimStart_allWhiteSpace. Qed.

Lemma truthy_false (s : string) : Js.truthy s = false <-> s = "".
Proof. destruct s; simpl; split; congruence. Qed.

Lemma split_nonempty (sep : ascii) (s : string) : Js.split sep s <> [].
Proof.
  induction s as [|c r IH]; simpl; [done|].
  destruct (Ascii.eqb c sep); [done|].
  destruct (Js.split sep r); done.
Qed.

(** ** Name-keyed resolver *)

Lemma findByName_Some {A : Type} (nameOf : A -> string) (name : string)
    (l : list A) (r : A) :
  findByName nameOf name l = Some r -> nameOf r = name /\ In r l.
Proof.
  unfold findByName. induction l as [|x l IH]; simpl; [done|].
  case_bool_decide as Hx.
  - intros [= ->]. split; [done | by left].
  - intros H. destruct (IH H). split; [done | by right].
Qed.

Lemma findByName_None {A : Type} (nameOf : A -> string) (name : string) (l : list A) :
  findByName nameOf name l = None -> forall r, In r l -> nameOf r <> name.
Proof.
  unfold findByName. induction l as [|x l IH]; simpl; [done|].
  case_bool_decide as Hx; [done|].
  intros H r [<-|Hr]; [done | by apply IH].
Qed.

(** C5. [findByName] returns the first record, in sequence order, whose name
    equals the query exactly, and nothing when no record has that name; with
    several records of that name the result is the earliest one. *)
Theorem findByName_first_exact_match {A : Type} (nameOf : A -> string)
    (name : string) (l : list A) :
  match findByName nameOf name l with
  | Some r =>
      exists before after,
        l = before ++ r :: after /\ nameOf r = name /\
        Forall (fun x => nameOf x <> name) before
  | None => Forall (fun x => nameOf x <> name) l
  end.
Proof.
  unfold findByName. induction l as [|x l IH]; simpl.
  - constructor.
  - case_bool_decide as Hx.
    + exists [], l. repeat split; [done | constructor].
    + destruct (find _ l) as [r|].
      * destruct IH as (before & after & -> & Hr & Hbefore).
        exists (x :: before), after. repeat split; [done | by constructor].
      * by constructor.
Qed.

Example findByName_duplicates :
  findByName Recipe.name "Soup" [pancakes; soup; soup'] = Some soup.
Proof. reflexivity. Qed.

Example findByName_case_sensitive :
  findByName Recipe.name "soup" [pancakes; soup; soup'] = None.
Proof. reflexivity. Qed.

Example findByName_no_trimming :
  findByName Recipe.name " Soup" [pancakes; soup; soup'] = None.
Proof. reflexivity. Qed.

(** ** Session store *)

(** C6. After [setSession t "true"] the token read back is [t] and the admin
    flag is on; the admin flag is on only when the stored value is exactly
    ["true"] (so it is off when unset or any other string); after
    [clearSession] no token is stored. *)
Theorem session_store_contract (t : string) (m : gmap string string) :
  getToken (setSession t "true" m) = Some t /\
  isAdmin (setSession t "true" m) = true /\
  (isAdmin m = true <-> getItem "is-admin" m = Some "true") /\
  (getItem "is-admin" m = None -> isAdmin m = false) /\
  (forall flag, getItem "is-admin" m = Some flag -> flag <> "true" -> isAdmin m = false) /\
  getToken (clearSession m) = None /\
  getItem "is-admin" (clearSession m) = None.
Proof.
  unfold getToken, isAdmin, setSession, clearSession, setItem, getItem, removeItem.
  repeat split.
  - rewrite lookup_insert_ne; [|done]. apply lookup_insert_eq.
  - apply bool_decide_eq_true. apply lookup_insert_eq.
  - apply bool_decide_eq_true.
  - intros H. by apply bool_decide_eq_true.
  - intros H. apply bool_decide_eq_false. congruence.
  - intros flag H Hflag. apply bool_decide_eq_false. congruence.
  - rewrite lookup_delete_ne; [|done]. apply lookup_delete_eq.
  - apply lookup_delete_eq.
Qed.

Example isAdmin_only_literal_true :
  isAdmin {["is-admin" := "True"]} = false /\
  isAdmin {["is-admin" := "undefined"]} = false /\
  isAdmin (∅ : gmap string string) = false.
Proof. by vm_compute. Qed.

(** ** The workflows *)

Section Properties.
Context `{W : World}.

Lemma ok_isOk (response : Response) : ok response = isOk (status response).
Proof. reflexivity. Qed.

(** *** What the fetch of a collection touches *)

Lemma requests_getRecipes (s : State) :
  requests (getRecipes s) = requests s ++ [getRecipesRequest s].
Proof.
  unfold getRecipes, fetch. destruct (serve _ _) as [b [|response]]; simpl; [done|].
  destruct (isOk _); simpl; [by destruct (parseRecipes _)|].
  by destruct (statusIs 401 _).
Qed.

Lemma requests_getIngredients (s : State) :
  requests (getIngredients s) = requests s ++ [getIngredientsRequest s].
Proof.
  unfold getIngredients, fetch. destruct (serve _ _) as [b [|response]]; simpl; [done|].
  destruct (isOk _); simpl; [by destruct (parseIngredients _)|].
  by destruct (statusIs 401 _).
Qed.

Lemma getRecipes_frame (s : State) :
  sessionStorage (getRecipes s) = sessionStorage s /\
  inputs (getRecipes s) = inputs s /\
  display (getRecipes s) = display s /\
  ingredients (getRecipes s) = ingredients s /\
  ingredientList (getRecipes s) = ingredientList s.
Proof.
  unfold getRecipes, fetch. destruct (serve _ _) as [b [|response]]; simpl; [done|].
  destruct (isOk _); simpl; [by destruct (parseRecipes _)|].
  by destruct (statusIs 401 _).
Qed.

Lemma getIngredients_frame (s : State) :
  sessionStorage (getIngredients s) = sessionStorage s /\
  inputs (getIngredients s) = inputs s /\
  display (getIngredients s) = display s /\
  recipes (getIngredients s) = recipes s /\
  recipeList (getIngredients s) = recipeList s.
Proof.
  unfold getIngredients, fetch. destruct (serve _ _) as [b [|response]]; simpl; [done|].
  destruct (isOk _); simpl; [by destruct (parseIngredients _)|].
  by destruct (statusIs 401 _).
Qed.

(** A successful fetch replaces the Mirror by the parsed response. *)
Lemma getRecipes_success (s : State) b response l :
  serve (backend s) (getRecipesRequest s) = (b, Responded response) ->
  ok response = true ->
  parseRecipes (body response) = Some l ->
  recipes (getRecipes s) = l /\
  recipeList (getRecipes s)
    = map (fun r => Recipe.name r +:+ ": " +:+ Recipe.instructions r) l /\
  alerts (getRecipes s) = alerts s /\ href (getRecipes s) = href s.
Proof.
  intros Hserve Hok Hparse. unfold getRecipes, fetch. rewrite Hserve. simpl.
  rewrite ok_isOk in Hok. rewrite Hok. simpl. by rewrite Hparse.
Qed.

Lemma getIngredients_success (s : State) b response l :
  serve (backend s) (getIngredientsRequest s) = (b, Responded response) ->
  ok response = true ->
  parseIngredients (body response) = Some l ->
  ingredients (getIngredients s) = l /\
  ingredientList (getIngredients s) = map Ingredient.name l /\
  alerts (getIngredients s) = alerts s /\ href (getIngredients s) = href s.
Proof.
  intros Hserve Hok Hparse. unfold getIngredients, fetch. rewrite Hserve. simpl.
  rewrite ok_isOk in Hok. rewrite Hok. simpl. by rewrite Hparse.
Qed.

(** *** Search *)

(** C8. With an empty or all-white-space search term the search workflow is
    the get-all-recipes workflow: the two leave the client in the same state,
    the request sent is the plain collection request, and on a successful
    answer the Mirror is the whole collection of that answer. *)
Theorem search_blank_is_getRecipes (s : State) :
  Js.allWhiteSpace (value "search-input" s) = true ->
  run SearchRecipes s = run GetRecipes s /\
  issued SearchRecipes s = Some (getRecipesRequest s) /\
  (forall b response l,
      serve (backend s) (getRecipesRequest s) = (b, Responded response) ->
      ok response = true ->
      parseRecipes (body response) = Some l ->
      recipes (run SearchRecipes s) = l).
Proof.
  intros Hblank.
  assert (Heq : run SearchRecipes s = run GetRecipes s).
  { simpl. unfold searchRecipes. by rewrite (trim_allWhiteSpace _ Hblank). }
  split; [exact Heq|]. split.
  - unfold issued. rewrite Heq. simpl. rewrite requests_getRecipes.
    by apply list_lookup_middle.
  - intros b response l Hserve Hok Hparse. rewrite Heq. simpl.
    by destruct (getRecipes_success s b response l Hserve Hok Hparse) as [-> _].
Qed.

(** *** Update *)

(** C10. When the name typed in the update form resolves to a record of the
    Mirror, the PUT request goes to that record's id and its body carries the
    record's id, name and author as they are in the Mirror, with only the
    instructions taken from the form; every later request of the workflow is
    a GET. *)
Theorem updateRecipe_body_frame (s : State) (recipe : Recipe.t) :
  let name := Js.trim (value "update-recipe-name-input" s) in
  let instructions := Js.trim (value "update-recipe-instructions-input" s) in
  name <> "" ->
  instructions <> "" ->
  findByName Recipe.name name (recipes s) = Some recipe ->
  exists req rest,
    requests (updateRecipe s) = requests s ++ req :: rest /\
    Forall (fun r => method r = "GET") rest /\
    method req = "PUT" /\
    url req = BASE_URL +:+ "/recipes/" +:+ Js.numberToString (Recipe.id recipe) /\
    payload req = Some (Js.JObj [("id", Js.JNum (Recipe.id recipe));
                                 ("name", Js.JStr (Recipe.name recipe));
                                 ("instructions", Js.JStr instructions);
                                 ("author", Recipe.author recipe)]) /\
    Recipe.name recipe = name /\ In recipe (recipes s).
Proof.
  intros name instructions Hname Hinstr Hfind.
  exists (updateRecipeRequest recipe instructions s).
  assert (Hrec : Recipe.name recipe = name /\ In recipe (recipes s)).
  { by apply findByName_Some. }
  unfold updateRecipe. fold name instructions.
  destruct name as [|c0 name0]; [done|]. destruct instructions as [|c1 instr0]; [done|].
  simpl negb. simpl orb. cbv iota. rewrite Hfind.
  unfold fetch. destruct (serve _ _) as [b [|response]]; simpl.
  { exists []. repeat split; try done; apply Hrec. }
  destruct (isOk _); simpl.
  { rewrite requests_getRecipes. simpl. rewrite <- app_assoc. simpl.
    eexists. split; [reflexivity|]. 
    repeat split; try done; try apply Hrec. by repeat constructor. }
  destruct (statusIs 401 _); simpl; exists []; repeat split; try done; apply Hrec.
Qed.

(** *** The first request of a workflow *)

Lemma lookup_log_end (l : list Request) : l !! List.length l = None.
Proof. by apply lookup_ge_None_2. Qed.

Lemma lookup_log_next (l rest : list Request) (req : Request) :
  (l ++ req :: rest) !! List.length l = Some req.
Proof. by apply list_lookup_middle. Qed.

Lemma lookup_log_next2 (l : list Request) (req req' : Request) :
  ((l ++ [req]) ++ [req']) !! List.length l = Some req.
Proof. rewrite <- app_assoc. apply lookup_log_next. Qed.

(** Case analysis along the control flow of a workflow. *)
Ltac branch :=
  match goal with
  | |- context [serve ?b ?req] =>
      let H := fresh "Hserve" in destruct (serve b req) as [? [|?]] eqn:H
  | |- context [findByName ?f ?n ?l] =>
      let H := fresh "Hfind" in destruct (findByName f n l) eqn:H
  | |- context [parseRecipes ?b] =>
      let H := fresh "Hparse" in destruct (parseRecipes b) eqn:H
  | |- context [parseIngredients ?b] =>
      let H := fresh "Hparse" in destruct (parseIngredients b) eqn:H
  | |- context [if ?c then _ else _] =>
      let H := fresh "Hif" in destruct c eqn:H
  end; simpl.

Ltac log_lookup :=
  rewrite ?requests_getRecipes, ?requests_getIngredients; simpl;
  first [ apply lookup_log_end | apply lookup_log_next | apply lookup_log_next2 ].

Lemma issued_firstRequest (w : Workflow) (s : State) :
  issued w s = firstRequest w s.
Proof.
  unfold issued.
  destruct w; simpl;
    unfold processLogin, processRegistration, addIngredient, getIngredients,
      deleteIngredient, searchRecipes, addRecipe, updateRecipe, deleteRecipe,
      getRecipes, processLogout, fetch;
    simpl; repeat branch; log_lookup.
Qed.

(** *** Add *)

Lemma statusIs_true (code st : Z) : st = code -> statusIs code st = true.
Proof. intros ->. apply Z.eqb_refl. Qed.



(** *** Failed runs *)

Ltac unfold_workflows :=
  unfold processLogin, processRegistration, addIngredient, getIngredients,
    deleteIngredient, searchRecipes, addRecipe, updateRecipe, deleteRecipe,
    getRecipes, processLogout.

(** Case analysis on the tests a hypothesis depends on. *)
Ltac branch_in H :=
  match type of H with
  | context [serve ?b ?req] =>
      let E := fresh "Hserve" in destruct (serve b req) as [? [|?]] eqn:E
  | context [findByName ?f ?n ?l] =>
      let E := fresh "Hfind" in destruct (findByName f n l) eqn:E
  | context [parseRecipes ?b] =>
      let E := fresh "Hparse" in destruct (parseRecipes b) eqn:E
  | context [parseIngredients ?b] =>
      let E := fresh "Hparse" in destruct (parseIngredients b) eqn:E
  | context [if ?c then _ else _] =>
      let E := fresh "Hif" in destruct c eqn:E
  end; simpl in H; try discriminate H.

(** A workflow that sends no request shows one message and does nothing
    else. *)
Lemma run_local (w : Workflow) (s : State) :
  issued w s = None -> exists msg, run w s = alert msg s.
Proof.
  rewrite issued_firstRequest.
  destruct w; simpl; unfold_workflows; intros H; try discriminate H;
    repeat branch_in H; simpl; eauto.
Qed.

(** A workflow whose request fails ends in the state its failure branch makes
    of the state left by [fetch]. *)
Lemma run_remote (w : Workflow) (s : State) (v : Variant) :
  outcome w s = Some v ->
  v <> Success ->
  ~ (delegate w s = SearchRecipes /\ v = NotFound) ->
  exists req,
    issued w s = Some req /\
    run w s = settle (delegate w s) v (fetch req s).2.
Proof.
  unfold outcome, answer. rewrite issued_firstRequest.
  destruct w; simpl; unfold_workflows; unfold fetch; intros H Hv Hsearch;
    repeat (branch_in H; simpl);
    try (injection H as <-); try done;
    try (exfalso; apply Hsearch; done);
    (eexists; split; [reflexivity|]);
    repeat match goal with E : serve _ _ = _ |- _ => rewrite E; clear E end;
    simpl; reflexivity.
Qed.
Lemma outcome_None (w : Workflow) (s : State) :
  outcome w s = None -> issued w s = None.
Proof.
  unfold outcome, answer. destruct (issued w s) as [req|]; simpl; [|done].
  destruct (serve _ _).2 as [|response]; [done|].
  destruct (dispatch _ _); try done. by destruct (rejectsBody _ _).
Qed.

(** The success tests of every chain hold on 2xx statuses only. *)
Lemma dispatch_success_ok (w : Workflow) (st : Z) :
  dispatch (chainOf w) st = Success -> isOk st = true.
Proof.
  destruct w; simpl; unfold statusIs, isOk;
    repeat match goal with
      | |- context [?a =? ?b] => destruct (Z.eqb_spec a b); subst; simpl
      | |- context [(200 <=? st) && (st <=? 299)] =>
          destruct ((200 <=? st) && (st <=? 299)); simpl
      end; done.
Qed.

Lemma outcome_not_ok (w : Workflow) (s : State) (response : Response) :
  answer w s = Some (Responded response) ->
  isOk (status response) = false ->
  outcome w s = Some (dispatch (chainOf (delegate w s)) (status response)) /\
  dispatch (chainOf (delegate w s)) (status response) <> Success.
Proof.
  intros Hanswer Hok.
  assert (Hne : dispatch (chainOf (delegate w s)) (status response) <> Success).
  { intros H. apply dispatch_success_ok in H. congruence. }
  split; [|done]. unfold outcome. rewrite Hanswer.
  by destruct (dispatch _ _).
Qed.

Lemma settle_fields (w : Workflow) (v : Variant) (req : Request) (s : State) :
  let s' := settle w v (fetch req s).2 in
  alerts s' = alerts s ++ [message w v] /\
  sessionStorage s' = sessionStorage s /\
  inputs s' = inputs s /\
  display s' = display s /\
  recipes s' = recipes s /\
  ingredients s' = ingredients s /\
  recipeList s' = recipeList s /\
  ingredientList s' = ingredientList s /\
  href s' = (if redirects w v then Some loginPage else href s) /\
  requests s' = requests s ++ [req].
Proof.
  unfold settle, fetch. destruct (serve _ _) as [b res].
  destruct (redirects w v); destruct v; simpl; done.
Qed.

(** C2. An aborted run of any workflow (a validation error, a name the
    resolver does not find, a request that throws, an answer that takes a
    failure branch; a 404 answer to a search apart, which is an empty result)
    shows exactly one message and changes nothing else: the inputs, the
    Mirrors and their rendering, the session storage and the shown elements
    stay as they were, and the page is sent to the login page only by a 401
    answer to the fetch of the whole collection. An answer that takes the
    success branch is no aborted run, whatever its body. *)
Theorem failed_run_one_message (w : Workflow) (s : State) :
  aborted w s = true ->
  (exists msg, alerts (run w s) = alerts s ++ [msg]) /\
  inputs (run w s) = inputs s /\
  recipes (run w s) = recipes s /\
  ingredients (run w s) = ingredients s /\
  recipeList (run w s) = recipeList s /\
  ingredientList (run w s) = ingredientList s /\
  sessionStorage (run w s) = sessionStorage s /\
  display (run w s) = display s /\
  href (run w s)
    = match answer w s with
      | Some (Responded response) =>
          if redirects (delegate w s)
               (dispatch (chainOf (delegate w s)) (status response))
          then Some loginPage else href s
      | _ => href s
      end.
Proof.
  unfold aborted. destruct (answer w s) as [[|response]|] eqn:Hanswer.
  - (* the request throws *)
    intros _.
    assert (Hout : outcome w s = Some NetworkError).
    { unfold outcome. by rewrite Hanswer. }
    destruct (run_remote w s NetworkError Hout) as (req & _ & ->); [done | |].
    { by intros [_ H]. }
    destruct (settle_fields (delegate w s) NetworkError req s)
      as (Ha & Hs & Hi & Hd & Hr & Hg & Hrl & Hgl & Hh & _).
    split_and!; eauto.
  - (* a failure branch *)
    intros Haborted.
    set (v := dispatch (chainOf (delegate w s)) (status response)) in *.
    assert (Hv : v <> Success) by (intros Hv; by rewrite Hv in Haborted).
    assert (Hsearch : ~ (delegate w s = SearchRecipes /\ v = NotFound)).
    { intros [Hw Hnf]. by rewrite Hnf, Hw in Haborted. }
    assert (Hout : outcome w s = Some v).
    { unfold outcome. rewrite Hanswer. fold v. by destruct v. }
    destruct (run_remote w s v Hout Hv Hsearch) as (req & _ & ->).
    destruct (settle_fields (delegate w s) v req s)
      as (Ha & Hs & Hi & Hd & Hr & Hg & Hrl & Hgl & Hh & _).
    split_and!; eauto.
  - (* no request *)
    intros _.
    assert (Hissued : issued w s = None).
    { unfold answer in Hanswer. by destruct (issued w s). }
    destruct (run_local w s Hissued) as (msg & ->). simpl.
    split_and!; eauto.
Qed.

(** C1. On the recipe and ingredient pages a 401 answer never touches the
    stored session: token and admin flag stay as they were. The fetch of the
    whole collection ([getRecipes], [getIngredients], and the search with an
    empty term) shows its login message and sends the page to the login page;
    every other workflow only shows the message of its 401 branch (or of its
    closing [else] when it has none) and stays on the page. *)
Theorem unauthorized_keeps_session (w : Workflow) (s : State) (response : Response) :
  onProtectedPage w = true ->
  answer w s = Some (Responded response) ->
  status response = 401 ->
  sessionStorage (run w s) = sessionStorage s /\
  alerts (run w s) = alerts s ++ [message (delegate w s) Unauthorized] /\
  href (run w s)
    = (if redirects (delegate w s) Unauthorized then Some loginPage else href s).
Proof.
  intros Hpage Hanswer Hstatus.
  destruct (outcome_not_ok w s response Hanswer) as [Hout Hne].
  { by rewrite Hstatus. }
  rewrite Hstatus in Hout, Hne.
  destruct (run_remote w s _ Hout Hne) as (req & _ & ->).
  { intros [Hw Hv]. rewrite Hw in Hv. discriminate Hv. }
  destruct (settle_fields (delegate w s) (dispatch (chainOf (delegate w s)) 401) req s)
    as (Ha & Hs & _ & _ & _ & _ & _ & _ & Hh & _).
  rewrite Ha, Hs, Hh. by destruct (delegate w s).
Qed.

(** C4. A failure is presented with the message of the branch of the
    workflow's own chain that handles it. A 403 presents the
    admin-access-required message in the add-ingredient, delete-ingredient
    and delete-recipe workflows, and a 409 the already-exists message in the
    registration workflow; a workflow without a branch for the status
    presents the message of its closing [else]. *)
Theorem failure_messages (w : Workflow) (s : State) (response : Response) :
  answer w s = Some (Responded response) ->
  (status response = 403 ->
   alerts (run w s)
     = alerts s ++ [if hasForbiddenBranch (delegate w s)
                    then "Forbidden: Admin access required"
                    else genericMessage (delegate w s)]) /\
  (status response = 409 ->
   alerts (run w s)
     = alerts s ++ [if hasConflictBranch (delegate w s)
                    then "User or email already exists"
                    else genericMessage (delegate w s)]) /\
  (status response = 401 ->
   alerts (run w s) = alerts s ++ [message (delegate w s) Unauthorized]) /\
  (status response = 404 -> delegate w s <> SearchRecipes ->
   alerts (run w s) = alerts s ++ [message (delegate w s) NotFound]) /\
  (forall v, outcome w s = Some v -> v <> Success ->
             ~ (delegate w s = SearchRecipes /\ v = NotFound) ->
             alerts (run w s) = alerts s ++ [message (delegate w s) v]).
Proof.
  intros Hanswer.
  assert (Hgen : forall v, outcome w s = Some v -> v <> Success ->
             ~ (delegate w s = SearchRecipes /\ v = NotFound) ->
             alerts (run w s) = alerts s ++ [message (delegate w s) v]).
  { intros v Hout Hv Hsearch.
    destruct (run_remote w s v Hout Hv Hsearch) as (req & _ & ->).
    by destruct (settle_fields (delegate w s) v req s) as (Ha & _). }
  assert (Hcode : forall code, isOk code = false -> status response = code ->
             ~ (delegate w s = SearchRecipes /\
                dispatch (chainOf (delegate w s)) code = NotFound) ->
             alerts (run w s)
               = alerts s ++ [message (delegate w s)
                                (dispatch (chainOf (delegate w s)) code)]).
  { intros code Hcode Hstatus Hsearch.
    destruct (outcome_not_ok w s response Hanswer) as [Hout Hne].
    { by rewrite Hstatus. }
    rewrite Hstatus in Hout, Hne. by apply Hgen. }
  repeat split; [| | | |exact Hgen].
  - intros H. rewrite (Hcode 403 eq_refl H).
    + by destruct (delegate w s).
    + intros [Hw Hv]. rewrite Hw in Hv. discriminate Hv.
  - intros H. rewrite (Hcode 409 eq_refl H).
    + by destruct (delegate w s).
    + intros [Hw Hv]. rewrite Hw in Hv. discriminate Hv.
  - intros H. rewrite (Hcode 401 eq_refl H).
    + by destruct (delegate w s).
    + intros [Hw Hv]. rewrite Hw in Hv. discriminate Hv.
  - intros H Hw. rewrite (Hcode 404 eq_refl H).
    + by destruct (delegate w s).
    + by intros [Hw' _].
Qed.

(** *** The stored token *)

(** A workflow leaves the session storage alone, unless it is a logout that
    succeeds, which clears the session, or a login answered 200, which stores
    the first two fields of the body. *)
Lemma storage_run (w : Workflow) (s : State) :
  sessionStorage (run w s) = sessionStorage s \/
  sessionStorage (run w s) = clearSession (sessionStorage s) \/
  exists username password b response,
    serve (backend s) (loginRequest username password) = (b, Responded response) /\
    status response = 200 /\
    sessionStorage (run w s)
      = setSession (element 0 (Js.split " " (body response)))
                   (element 1 (Js.split " " (body response))) (sessionStorage s).
Proof.
  destruct w; simpl; unfold_workflows; unfold fetch; simpl; repeat branch;
    rewrite ?(proj1 (getRecipes_frame _)), ?(proj1 (getIngredients_frame _)); simpl;
    try (left; reflexivity); try (right; left; reflexivity).
  all: right; right; do 4 eexists; split; [eassumption|].
  all: split; [|reflexivity].
  all: match goal with H : statusIs 200 _ = true |- _ => by apply Z.eqb_eq in H end.
Qed.

Lemma storage_step (e : Event) (s : State) :
  sessionStorage (step e s) = sessionStorage s \/
  sessionStorage (step e s) = clearSession (sessionStorage s) \/
  exists username password b response,
    serve (backend s) (loginRequest username password) = (b, Responded response) /\
    status response = 200 /\
    sessionStorage (step e s)
      = setSession (element 0 (Js.split " " (body response)))
                   (element 1 (Js.split " " (body response))) (sessionStorage s).
Proof.
  destruct e as [w|id text| |]; simpl.
  - apply storage_run.
  - by left.
  - left. unfold recipePageLoad. cbv zeta.
    rewrite (proj1 (getRecipes_frame _)). by repeat case_match.
  - left. unfold ingredientPageLoad.
    by rewrite (proj1 (getIngredients_frame _)).
Qed.

(** C7. The token a login stores is the part of the 200 body before its first
    space, whatever it is. So when every 200 answer to a login request starts
    with a non-empty token, the stored token is absent or non-empty in every
    reachable state of the client. *)
Theorem token_absent_or_nonempty (s : State) :
  loginBodiesCarryToken ->
  reachable s ->
  getToken (sessionStorage s) = None \/
  exists t, getToken (sessionStorage s) = Some t /\ t <> "".
Proof.
  intros Hbodies Hreach. induction Hreach as [s Hstart|e s Hreach IH].
  - left. rewrite Hstart. apply lookup_empty.
  - destruct (storage_step e s) as [->|[->|(username & password & b & response
                                          & Hserve & Hstatus & ->)]].
    + exact IH.
    + left. unfold getToken, clearSession, removeItem, getItem.
      rewrite lookup_delete_ne; [|done]. apply lookup_delete_eq.
    + right. exists (element 0 (Js.split " " (body response))). split.
      * unfold getToken, setSession, setItem, getItem.
        rewrite lookup_insert_ne; [|done]. apply lookup_insert_eq.
      * by apply (Hbodies (backend s) username password b response).
Qed.

End Properties.

(** ** Response handling *)

Lemma fires_nil (st : Z) (i : nat) : fires [] st i <-> i = 0%nat.
Proof.
  unfold fires. split.
  - intros [_ H]. by destruct i.
  - intros ->. split; [lia | done].
Qed.

Lemma fires_head (test : Z -> bool) (v : Variant) (rest : chain) (st : Z) (i : nat) :
  test st = true -> fires ((test, v) :: rest) st i <-> i = 0%nat.
Proof.
  intros Htest. unfold fires. split.
  - intros [Hbefore _]. destruct i as [|i]; [done|].
    specialize (Hbefore 0%nat test v). simpl in Hbefore.
    rewrite Hbefore in Htest; [done | lia | done].
  - intros ->. split; [lia | done].
Qed.

Lemma fires_tail (test : Z -> bool) (v : Variant) (rest : chain) (st : Z) (i : nat) :
  test st = false ->
  fires ((test, v) :: rest) st i <-> exists i', i = S i' /\ fires rest st i'.
Proof.
  intros Htest. unfold fires. split.
  - intros [Hbefore Hhere]. destruct i as [|i]; [simpl in Hhere; congruence|].
    change (((test, v) :: rest) !! S i) with (rest !! i) in Hhere.
    exists i. split; [done|]. split.
    + intros j test' v' Hj Hlook. apply (Hbefore (S j) test' v'); [lia | done].
    + destruct (rest !! i) as [[test' v']|]; [done | simpl in Hhere; congruence].
  - intros (i' & -> & Hbefore & Hhere). split.
    + intros [|j] test' v' Hj Hlook; simpl in Hlook.
      * by injection Hlook as <- <-.
      * apply (Hbefore j test' v'); [lia | done].
    + change (((test, v) :: rest) !! S i') with (rest !! i').
      destruct (rest !! i') as [[test' v']|]; [done | simpl; congruence].
Qed.

(** On every status exactly one branch of a chain is taken, and [dispatch]
    yields the variant of that branch. *)
Lemma chain_total_exclusive (ch : chain) (st : Z) :
  exists i, fires ch st i /\ (forall j, fires ch st j -> j = i) /\
            (i <= List.length ch)%nat /\ dispatch ch st = branchVariant ch i.
Proof.
  induction ch as [|[test v] rest IH].
  - exists 0%nat. split_and!; [by apply fires_nil | | done | done].
    intros j Hj. by apply fires_nil in Hj.
  - destruct (test st) eqn:Htest.
    + exists 0%nat. split_and!.
      * by apply fires_head.
      * intros j Hj. by apply (fires_head test v rest st j Htest).
      * simpl. lia.
      * simpl. by rewrite Htest.
    + destruct IH as (i & Hi & Huniq & Hlen & Hdisp). exists (S i). split_and!.
      * apply fires_tail; [done|]. by exists i.
      * intros j Hj. apply fires_tail in Hj as (j' & -> & Hj'); [|done].
        f_equal. by apply Huniq.
      * simpl. lia.
      * simpl. by rewrite Htest.
Qed.

Ltac chain_cases st :=
  unfold statusIs, isOk;
  repeat match goal with
    | |- context [?a =? ?b] => destruct (Z.eqb_spec a b); simpl
    | |- context [200 <=? st] => destruct (Z.leb_spec 200 st); simpl
    | |- context [st <=? 299] => destruct (Z.leb_spec st 299); simpl
    end.

(** C9. The response handling of every workflow is total and exclusive: on
    every status exactly one branch of its chain is taken (the closing [else]
    when no test holds), and no status takes the network error branch, which
    is the [catch] block. The success branch is taken on 200 only by login,
    on 201 only by registration and the two add workflows, on 200 and 204
    only by the ingredient delete, and on every 2xx by the other workflows;
    the 401, 403, 404 and 409 branches are taken on their status by the
    workflows that test for it; every other status takes the closing [else].
    So the branch taken is the variant of the seven-way classification where
    the workflow has a test for the status, and the generic failure
    otherwise. *)
Theorem response_handling_total_exclusive (w : Workflow) (st : Z) :
  (exists i, fires (chainOf w) st i /\
             (forall j, fires (chainOf w) st j -> j = i) /\
             dispatch (chainOf w) st = branchVariant (chainOf w) i) /\
  dispatch (chainOf w) st <> NetworkError /\
  (dispatch (chainOf w) st = Success <-> successStatus w st) /\
  (dispatch (chainOf w) st = Unauthorized <-> st = 401 /\ hasUnauthorizedBranch w = true) /\
  (dispatch (chainOf w) st = Forbidden <-> st = 403 /\ hasForbiddenBranch w = true) /\
  (dispatch (chainOf w) st = NotFound <-> st = 404 /\ hasNotFoundBranch w = true) /\
  (dispatch (chainOf w) st = Conflict <-> st = 409 /\ hasConflictBranch w = true) /\
  (dispatch (chainOf w) st = specClassify st \/
   dispatch (chainOf w) st = GenericFailure).
Proof.
  split_and!.
  - destruct (chain_total_exclusive (chainOf w) st) as (i & Hi & Huniq & _ & Hdisp).
    by exists i.
  - destruct w; simpl; repeat case_match; done.
  - destruct w; simpl; chain_cases st; split; intros; try done; try lia; auto.
  - destruct w; simpl; chain_cases st;
      (split; [intros ? | intros [? ?]]); try done; try lia; by split.
  - destruct w; simpl; chain_cases st;
      (split; [intros ? | intros [? ?]]); try done; try lia; by split.
  - destruct w; simpl; chain_cases st;
      (split; [intros ? | intros [? ?]]); try done; try lia; by split.
  - destruct w; simpl; chain_cases st;
      (split; [intros ? | intros [? ?]]); try done; try lia; by split.
  - destruct w; simpl; unfold statusIs, isOk, specClassify;
      repeat match goal with
        | |- context [?a =? ?b] => destruct (Z.eqb_spec a b); subst; simpl
        | |- context [(200 <=? st) && (st <=? 299)] =>
            destruct ((200 <=? st) && (st <=? 299)); simpl
        end; auto.
Qed.


(** * The properties on sample states *)

(** ** Unauthorized answers *)

(** A logged-in user adds a recipe and the backend answers 401: the token
    and the admin flag are still stored afterwards and the page has not been
    sent anywhere. *)
Lemma addRecipe_unauthorized_stays_logged_in :
  onProtectedPage AddRecipe = true /\
  getToken (sessionStorage (recipePageWith (answered 401))) = Some "abc" /\
  answer AddRecipe (recipePageWith (answered 401)) = Some (Responded (mkResponse 401 "")) /\
  getToken (sessionStorage (run AddRecipe (recipePageWith (answered 401)))) = Some "abc" /\
  getItem "is-admin" (sessionStorage (run AddRecipe (recipePageWith (answered 401))))
    = Some "false" /\
  href (run AddRecipe (recipePageWith (answered 401))) = None /\
  alerts (run AddRecipe (recipePageWith (answered 401)))
    = ["Unauthorized: Please login again"] /\
  href (run GetRecipes (recipePageWith (answered 401))) = Some loginPage /\
  getToken (sessionStorage (run GetRecipes (recipePageWith (answered 401)))) = Some "abc".
Proof. vm_compute. by repeat split. Qed.

(** The fetch of the collection answered 401 keeps the session too, and sends
    the page to the login page. *)
Lemma unauthorized_keeps_session_getRecipes :
  (onProtectedPage GetRecipes = true /\
   answer GetRecipes (recipePageWith (answered 401)) = Some (Responded (mkResponse 401 "")) /\
   status (mkResponse 401 "") = 401) /\
  sessionStorage (run GetRecipes (recipePageWith (answered 401)))
    = sessionStorage (recipePageWith (answered 401)) /\
  alerts (run GetRecipes (recipePageWith (answered 401))) = ["Unauthorized: Please login"] /\
  href (run GetRecipes (recipePageWith (answered 401))) = Some loginPage.
Proof.
  split; [by vm_compute|].
  apply (unauthorized_keeps_session GetRecipes
           (recipePageWith (answered 401)) (mkResponse 401 ""));
    by vm_compute.
Defined.

(** ** Failed runs *)

(** A search answered 404 shows no message and replaces the Mirror and the
    list by the empty collection. *)
Lemma search_not_found_empties_mirror :
  answer SearchRecipes (recipePageWith (answered 404)) = Some (Responded (mkResponse 404 "")) /\
  specClassify 404 = NotFound /\
  alerts (run SearchRecipes (recipePageWith (answered 404))) = [] /\
  recipes (recipePageWith (answered 404)) = [pancakes] /\
  recipes (run SearchRecipes (recipePageWith (answered 404))) = [] /\
  recipeList (recipePageWith (answered 404)) = ["Pancakes: Mix and fry"] /\
  recipeList (run SearchRecipes (recipePageWith (answered 404))) = [].
Proof. vm_compute. by repeat split. Qed.

(** A refused deletion of an ingredient shows one message and keeps the
    form, the Mirror and the session. *)
Lemma failed_run_one_message_deleteIngredient :
  aborted DeleteIngredient (ingredientPageWith (answered 403)) = true /\
  (exists msg,
      alerts (run DeleteIngredient (ingredientPageWith (answered 403)))
        = alerts (ingredientPageWith (answered 403)) ++ [msg]) /\
  inputs (run DeleteIngredient (ingredientPageWith (answered 403)))
    = inputs (ingredientPageWith (answered 403)) /\
  ingredients (run DeleteIngredient (ingredientPageWith (answered 403))) = [salt] /\
  sessionStorage (run DeleteIngredient (ingredientPageWith (answered 403)))
    = sessionStorage (ingredientPageWith (answered 403)) /\
  href (run DeleteIngredient (ingredientPageWith (answered 403))) = None.
Proof.
  split; [by vm_compute|].
  destruct (failed_run_one_message DeleteIngredient (ingredientPageWith (answered 403)))
    as (Halerts & Hinputs & _ & Hingredients & _ & _ & Hstorage & _ & Hhref).
  - by vm_compute.
  - split_and!; [exact Halerts | exact Hinputs | exact Hingredients | exact Hstorage
                | exact Hhref].
Defined.

(** ** Messages *)

(** A 403 answer to an added recipe shows the generic message of the
    workflow, the same as a 500 answer, not the admin-access message; a 409
    answer to an added ingredient shows the generic message as well. *)
Lemma addRecipe_forbidden_generic_message :
  answer AddRecipe (recipePageWith (answered 403)) = Some (Responded (mkResponse 403 "")) /\
  alerts (run AddRecipe (recipePageWith (answered 403))) = ["Failed to add recipe"] /\
  alerts (run AddRecipe (recipePageWith (answered 500))) = ["Failed to add recipe"] /\
  answer AddIngredient (ingredientPageWith (answered 409))
    = Some (Responded (mkResponse 409 "")) /\
  alerts (run AddIngredient (ingredientPageWith (answered 409)))
    = ["Failed to add ingredient"].
Proof. vm_compute. by repeat split. Qed.

(** A 403 answer to a deleted recipe shows the admin-access message. *)
Lemma failure_messages_deleteRecipe :
  answer DeleteRecipe (recipePageWith (answered 403)) = Some (Responded (mkResponse 403 "")) /\
  alerts (run DeleteRecipe (recipePageWith (answered 403)))
    = ["Forbidden: Admin access required"].
Proof.
  split; [by vm_compute|].
  destruct (failure_messages DeleteRecipe (recipePageWith (answered 403)) (mkResponse 403 ""))
    as (H403 & _).
  - by vm_compute.
  - exact (H403 eq_refl).
Defined.

(** ** Response handling *)

(** 201 is a 2xx status, and the delete-ingredient workflow handles it in its
    closing [else]: it shows the failure message and keeps the input. *)
Lemma deleteIngredient_201_generic_failure :
  100 <= 201 <= 599 /\
  specClassify 201 = Success /\
  dispatch (chainOf DeleteIngredient) 201 = GenericFailure /\
  alerts (run DeleteIngredient (ingredientPageWith (answered 201)))
    = ["Failed to delete ingredient"] /\
  value "delete-ingredient-name-input"
    (run DeleteIngredient (ingredientPageWith (answered 201))) = "Salt".
Proof. vm_compute. repeat split; congruence. Qed.

(** No workflow handles its responses by the seven-way classification: each
    chain sends some status of a dedicated variant to its closing [else]. *)
Lemma no_chain_is_specClassify (w : Workflow) :
  exists st, 100 <= st <= 599 /\ dispatch (chainOf w) st <> specClassify st.
Proof.
  destruct w;
    first [ exists 403; split; [lia | by vm_compute]
          | exists 404; split; [lia | by vm_compute]
          | exists 201; split; [lia | by vm_compute] ].
Qed.

(** ** Add, search, update *)


Lemma search_blank_is_getRecipes_sample :
  Js.allWhiteSpace (value "search-input" (recipePageBlankSearch (answered 200))) = true /\
  run SearchRecipes (recipePageBlankSearch (answered 200))
    = run GetRecipes (recipePageBlankSearch (answered 200)) /\
  issued SearchRecipes (recipePageBlankSearch (answered 200))
    = Some (getRecipesRequest (recipePageBlankSearch (answered 200))).
Proof.
  split; [by vm_compute|].
  destruct (search_blank_is_getRecipes (recipePageBlankSearch (answered 200)))
    as (Hrun & Hissued & _).
  - by vm_compute.
  - by split.
Defined.

Lemma updateRecipe_body_frame_pancakes :
  findByName Recipe.name "Pancakes" (recipes (recipePageWith (answered 200))) = Some pancakes /\
  exists req rest,
    requests (updateRecipe (recipePageWith (answered 200)))
      = requests (recipePageWith (answered 200)) ++ req :: rest /\
    Forall (fun r => method r = "GET") rest /\
    method req = "PUT" /\
    url req = "http://localhost:8081/recipes/1" /\
    payload req = Some (Js.JObj [("id", Js.JNum 1);
                                 ("name", Js.JStr "Pancakes");
                                 ("instructions", Js.JStr "Flip twice");
                                 ("author", Recipe.author pancakes)]).
Proof.
  split; [by vm_compute|].
  destruct (updateRecipe_body_frame (recipePageWith (answered 200)) pancakes)
    as (req & rest & Hlog & Hrest & Hmethod & Hurl & Hpayload & _).
  - by vm_compute.
  - by vm_compute.
  - by vm_compute.
  - exists req, rest. split_and!; [exact Hlog | exact Hrest | exact Hmethod | exact Hurl
                                  | exact Hpayload].
Defined.

(** ** The stored token *)

(** A login answered 200 with an empty body, or with a body that starts with
    a space, stores the empty token; a body without a space stores the text
    ["undefined"] as the admin flag. *)
Lemma login_stores_empty_token :
  sessionStorage (loginPageWith "") = ∅ /\
  reachable (step (Click ProcessLogin) (loginPageWith "")) /\
  getToken (sessionStorage (step (Click ProcessLogin) (loginPageWith ""))) = Some "" /\
  getToken (sessionStorage (step (Click ProcessLogin) (loginPageWith " true"))) = Some "" /\
  getItem "is-admin" (sessionStorage (step (Click ProcessLogin) (loginPageWith "tok")))
    = Some "undefined".
Proof.
  split; [done|]. split.
  - by apply reachable_step, reachable_start.
  - vm_compute. by repeat split.
Qed.

Lemma loginOnly_bodies_carry_token : @loginBodiesCarryToken loginOnly.
Proof.
  intros b username password b' response Hserve _.
  vm_compute in Hserve. injection Hserve as _ <-. by vm_compute.
Defined.

Lemma token_absent_or_nonempty_after_login :
  reachable (step (Click ProcessLogin) loginPageAccepted) /\
  getToken (sessionStorage (step (Click ProcessLogin) loginPageAccepted)) = Some "token123" /\
  (getToken (sessionStorage (step (Click ProcessLogin) loginPageAccepted)) = None \/
   exists t, getToken (sessionStorage (step (Click ProcessLogin) loginPageAccepted)) = Some t
             /\ t <> "").
Proof.
  assert (Hreach : reachable (step (Click ProcessLogin) loginPageAccepted))
    by (by apply reachable_step, reachable_start).
  split; [exact Hreach|]. split; [by vm_compute|].
  exact (token_absent_or_nonempty (step (Click ProcessLogin) loginPageAccepted)
           loginOnly_bodies_carry_token Hreach).
Defined.

(** * Further properties of the scripts *)

Ltac wf_unfold :=
  unfold processLogin, processRegistration, addIngredient, getIngredients,
    deleteIngredient, searchRecipes, addRecipe, updateRecipe, deleteRecipe,
    getRecipes, processLogout.

Ltac wf_branch :=
  match goal with
  | |- context [negb (Js.truthy ?t)] =>
      let H := fresh "Hblank" in destruct (negb (Js.truthy t)) eqn:H
  | |- context [bool_decide ?P] =>
      let H := fresh "Hdec" in destruct (bool_decide P) eqn:H
  | |- context [findByName ?f ?n ?l] =>
      let H := fresh "Hfind" in destruct (findByName f n l) eqn:H
  | |- context [serve ?b ?req] =>
      let H := fresh "Hserve" in destruct (serve b req) as [? [|?]] eqn:H
  | |- context [statusIs ?c ?x] =>
      let H := fresh "Hstatus" in destruct (statusIs c x) eqn:H
  | |- context [isOk ?x] =>
      let H := fresh "Hok" in destruct (isOk x) eqn:H
  | |- context [parseRecipes ?b] =>
      let H := fresh "Hparse" in destruct (parseRecipes b) eqn:H
  | |- context [parseIngredients ?b] =>
      let H := fresh "Hparse" in destruct (parseIngredients b) eqn:H
  | |- context [if ?c then _ else _] =>
      let H := fresh "Hif" in destruct c eqn:H
  end; simpl.

Ltac wf_branch_in H :=
  match type of H with
  | context [negb (Js.truthy ?t)] =>
      let E := fresh "Hblank" in destruct (negb (Js.truthy t)) eqn:E
  | context [bool_decide ?P] =>
      let E := fresh "Hdec" in destruct (bool_decide P) eqn:E
  | context [findByName ?f ?n ?l] =>
      let E := fresh "Hfind" in destruct (findByName f n l) eqn:E
  end; simpl in H; try discriminate H.

(** ** White space *)

Lemma trimEnd_empty (s : string) :
  Js.trimEnd s = "" -> Js.allWhiteSpace s = true.
Proof.
  induction s as [|c r IH]; simpl; [done|].
  destruct (Js.trimEnd r); [|done].
  destruct (Js.isWhiteSpace c); [|done]. intros _. by apply IH.
Qed.

Lemma allWhiteSpace_trimStart (s : string) :
  Js.allWhiteSpace (Js.trimStart s) = true -> Js.allWhiteSpace s = true.
Proof.
  induction s as [|c r IH]; simpl; [done|].
  destruct (Js.isWhiteSpace c) eqn:Hc; simpl; [exact IH|].
  by rewrite Hc.
Qed.

Lemma trim_empty_iff (s : string) :
  Js.truthy (Js.trim s) = false <-> Js.allWhiteSpace s = true.
Proof.
  rewrite truthy_false. split.
  - intros H. by apply allWhiteSpace_trimStart, trimEnd_empty.
  - apply trim_allWhiteSpace.
Qed.

(** ** Resolver *)

Lemma findByName_None_iff {A : Type} (nameOf : A -> string) (name : string) (l : list A) :
  findByName nameOf name l = None <-> ~ In name (map nameOf l).
Proof.
  split.
  - intros H Hin. apply in_map_iff in Hin as (r & Hr & Hin).
    by apply (findByName_None nameOf name l H r Hin).
  - intros Hnot. destruct (findByName nameOf name l) as [r|] eqn:Hfind; [|done].
    apply findByName_Some in Hfind as [<- Hin]. destruct Hnot. by apply in_map.
Qed.

Lemma findByName_first {A : Type} (nameOf : A -> string) (name : string)
    (before after : list A) (r : A) :
  Forall (fun x => nameOf x <> name) before ->
  nameOf r = name ->
  findByName nameOf name (before ++ r :: after) = Some r.
Proof.
  intros Hbefore Hr. unfold findByName.
  induction Hbefore as [|x before Hx _ IH]; simpl.
  - by rewrite bool_decide_eq_true_2.
  - by rewrite bool_decide_eq_false_2.
Qed.

(** ** Splitting *)

Lemma split_first_field (sep : ascii) (s : string) :
  exists h t,
    Js.split sep s = h :: t /\ occurs sep h = false /\
    ((s = h /\ t = []) \/ exists rest, s = h +:+ String sep rest /\ t = Js.split sep rest).
Proof.
  induction s as [|c r IH]; simpl.
  - exists "", []. split_and!; [done | done | by left].
  - destruct (Ascii.eqb c sep) eqn:Hc.
    + apply Ascii.eqb_eq in Hc as ->.
      exists "", (Js.split sep r). split_and!; [done | done |]. right. by exists r.
    + destruct IH as (h & t & -> & Hh & Hs).
      exists (String c h), t. split_and!; [done | |].
      * simpl. by rewrite Ascii.eqb_sym, Hc.
      * destruct Hs as [[-> ->]|(rest & -> & ->)]; [by left|].
        right. by exists rest.
Qed.

Lemma split_no_separator (sep : ascii) (s : string) :
  occurs sep s = false -> Js.split sep s = [s].
Proof.
  induction s as [|c r IH]; simpl; [done|].
  rewrite (Ascii.eqb_sym sep c). destruct (Ascii.eqb c sep); simpl; [done|].
  intros H. by rewrite (IH H).
Qed.

Lemma split_two_fields (sep : ascii) (a b : string) :
  occurs sep a = false -> occurs sep b = false ->
  Js.split sep (a +:+ String sep b) = [a; b].
Proof.
  intros Ha Hb. induction a as [|c r IH]; simpl in *.
  - by rewrite Ascii.eqb_refl, (split_no_separator _ _ Hb).
  - rewrite (Ascii.eqb_sym sep c) in Ha. destruct (Ascii.eqb c sep); simpl in *; [done|].
    by rewrite (IH Ha).
Qed.


(** ** Percent-encoding *)

Lemma allChars_app (test : ascii -> bool) (a b : string) :
  allChars test (a +:+ b) = allChars test a && allChars test b.
Proof.
  induction a as [|c r IH]; simpl; [done|]. rewrite IH. by rewrite andb_assoc.
Qed.

Lemma allChars_occurs (test : ascii -> bool) (c : ascii) (s : string) :
  allChars test s = true -> test c = false -> occurs c s = false.
Proof.
  intros Hs Hc. induction s as [|c' r IH]; simpl in *; [done|].
  apply andb_true_iff in Hs as [Hc' Hr]. rewrite (IH Hr), orb_false_r.
  destruct (Ascii.eqb_spec c c') as [->|]; [congruence | done].
Qed.

Lemma hexDigit_unreserved (n : N) : Js.isUnreserved (Js.hexDigit n) = true.
Proof.
  unfold Js.hexDigit. generalize (N.to_nat n). intros k.
  do 16 (destruct k as [|k]; [by vm_compute|]). by vm_compute.
Qed.

Lemma percent_safe (n : N) : allChars isUrlSafe (Js.percent n) = true.
Proof.
  unfold Js.percent, isUrlSafe. simpl. by rewrite !hexDigit_unreserved.
Qed.

Lemma encodeChar_safe (c : ascii) : allChars isUrlSafe (Js.encodeChar c) = true.
Proof.
  unfold Js.encodeChar. destruct (Js.isUnreserved c) eqn:Hc.
  - simpl. unfold isUrlSafe. by rewrite Hc.
  - destruct (_ <? _)%N; [apply percent_safe|].
    by rewrite allChars_app, !percent_safe.
Qed.

(** X18. [encodeURIComponent] yields unreserved characters and [%] only, so
    the encoded search term has none of the characters that delimit a query
    string. *)
Theorem encodeURIComponent_safe (term : string) :
  allChars isUrlSafe (Js.encodeURIComponent term) = true /\
  occurs "&" (Js.encodeURIComponent term) = false /\
  occurs "=" (Js.encodeURIComponent term) = false /\
  occurs "?" (Js.encodeURIComponent term) = false /\
  occurs "#" (Js.encodeURIComponent term) = false /\
  occurs "/" (Js.encodeURIComponent term) = false /\
  occurs " " (Js.encodeURIComponent term) = false.
Proof.
  assert (Hsafe : allChars isUrlSafe (Js.encodeURIComponent term) = true).
  { induction term as [|c r IH]; simpl; [done|].
    by rewrite allChars_app, encodeChar_safe, IH. }
  split_and!; [done | ..]; by apply (allChars_occurs isUrlSafe).
Qed.

(** X19. A term made of unreserved characters (letters, digits and
    [-_.!~*'()]) is sent as it is. *)
Theorem encodeURIComponent_unreserved (term : string) :
  allChars Js.isUnreserved term = true ->
  Js.encodeURIComponent term = term.
Proof.
  induction term as [|c r IH]; simpl; [done|].
  intros [Hc Hr]%andb_true_iff. unfold Js.encodeChar. rewrite Hc. simpl.
  by rewrite (IH Hr).
Qed.

Section Further.
Context `{W : World}.

(** ** When no request is sent *)

Lemma blank_negb (id : string) (s : State) :
  negb (Js.truthy (Js.trim (value id s))) = true <-> Js.allWhiteSpace (value id s) = true.
Proof. rewrite negb_true_iff. apply trim_empty_iff. Qed.

(** X1. A workflow stops before it sends anything exactly when one of its
    required inputs is empty or white space only, or (registration) the two
    trimmed passwords differ, or (update, delete) no record of the Mirror has
    the trimmed name. *)
Theorem no_request_iff (w : Workflow) (s : State) :
  issued w s = None <->
  Exists (fun id => Js.allWhiteSpace (value id s) = true) (requiredInputs w) \/
  (w = ProcessRegistration /\
   Js.trim (value "password-input" s) <> Js.trim (value "repeat-password-input" s)) \/
  (resolvesName w = true /\ ~ In (resolvedName w s) (resolverNames w s)).
Proof.
  rewrite issued_firstRequest.
  destruct w; simpl; rewrite ?Exists_cons, ?Exists_nil, <- ?blank_negb;
    repeat match goal with
      | |- context [negb (Js.truthy ?t)] => destruct (negb (Js.truthy t)); simpl
      end;
    rewrite <- ?findByName_None_iff;
    try match goal with
      | |- context [bool_decide ?P] => destruct (bool_decide_reflect P)
      end;
    try destruct (findByName _ _ _); simpl;
    intuition congruence.
Qed.

(** X2. A workflow with a required input that is empty or white space only
    shows its validation message and does nothing else: no request is sent
    and the backend is not asked. *)
Theorem blank_input_rejected (w : Workflow) (s : State) (id : string) :
  In id (requiredInputs w) ->
  Js.allWhiteSpace (value id s) = true ->
  run w s = alert (validationMessage w) s.
Proof.
  intros Hin Hblank. apply trim_allWhiteSpace in Hblank.
  destruct w; simpl in Hin; try done; simpl; wf_unfold;
    repeat (destruct Hin as [<-|Hin]; [rewrite Hblank; simpl; by rewrite ?orb_true_r|]);
    done.
Qed.


(** X4. An update or a delete whose inputs are filled and whose trimmed name
    is the name of no record of the Mirror shows the not-found message of its
    page and sends nothing. *)
Theorem unknown_name_rejected (w : Workflow) (s : State) :
  resolvesName w = true ->
  Forall (fun id => Js.allWhiteSpace (value id s) = false) (requiredInputs w) ->
  ~ In (resolvedName w s) (resolverNames w s) ->
  run w s = alert (notFoundMessage w) s.
Proof.
  intros Hw Hfilled Hnot.
  assert (Hnb : forall id, Js.allWhiteSpace (value id s) = false ->
                           negb (Js.truthy (Js.trim (value id s))) = false).
  { intros id H. destruct (negb _) eqn:Hn; [|done].
    apply blank_negb in Hn. congruence. }
  destruct w; try discriminate Hw; simpl in *.
  - apply findByName_None_iff in Hnot.
    inversion Hfilled as [|? ? Hn _]; subst.
    unfold deleteIngredient. by rewrite (Hnb _ Hn), Hnot.
  - apply findByName_None_iff in Hnot.
    inversion Hfilled as [|? ? Hn Hf]; subst. inversion Hf as [|? ? Hi _]; subst.
    unfold updateRecipe. by rewrite (Hnb _ Hn), (Hnb _ Hi), Hnot.
  - apply findByName_None_iff in Hnot.
    inversion Hfilled as [|? ? Hn _]; subst.
    unfold deleteRecipe. by rewrite (Hnb _ Hn), Hnot.
Qed.

(** X5. When several recipes of the Mirror have the typed name, update and
    delete address the first of them: the request goes to the path of the
    id of the first record with that name. *)
Theorem recipe_duplicates_first_targeted (w : Workflow) (s : State)
    (before after : list Recipe.t) (r : Recipe.t) :
  w = UpdateRecipe \/ w = DeleteRecipe ->
  Forall (fun id => Js.allWhiteSpace (value id s) = false) (requiredInputs w) ->
  recipes s = before ++ r :: after ->
  Forall (fun x => Recipe.name x <> resolvedName w s) before ->
  Recipe.name r = resolvedName w s ->
  exists req,
    issued w s = Some req /\
    url req = recordPath w (Recipe.id r) /\
    method req = match w with UpdateRecipe => "PUT" | _ => "DELETE" end.
Proof.
  intros Hw Hfilled Hl Hbefore Hr.
  assert (Hnb : forall id, Js.allWhiteSpace (value id s) = false ->
                           negb (Js.truthy (Js.trim (value id s))) = false).
  { intros id H. destruct (negb _) eqn:Hn; [|done].
    apply blank_negb in Hn. congruence. }
  rewrite issued_firstRequest.
  destruct Hw as [-> | ->]; simpl in *.
  - inversion Hfilled as [|? ? Hn Hf]; subst. inversion Hf as [|? ? Hi _]; subst.
    rewrite (Hnb _ Hn), (Hnb _ Hi), Hl. simpl.
    rewrite (findByName_first Recipe.name _ before after r Hbefore Hr). simpl.
    by eexists.
  - inversion Hfilled as [|? ? Hn _]; subst.
    rewrite (Hnb _ Hn), Hl. simpl.
    rewrite (findByName_first Recipe.name _ before after r Hbefore Hr). simpl.
    by eexists.
Qed.

(** X6. The same for the ingredient page: with several ingredients of the
    typed name, the DELETE goes to the id of the first of them. *)
Theorem ingredient_duplicates_first_targeted (s : State)
    (before after : list Ingredient.t) (i : Ingredient.t) :
  Js.allWhiteSpace (value "delete-ingredient-name-input" s) = false ->
  ingredients s = before ++ i :: after ->
  Forall (fun x => Ingredient.name x <> Js.trim (value "delete-ingredient-name-input" s))
         before ->
  Ingredient.name i = Js.trim (value "delete-ingredient-name-input" s) ->
  exists req,
    issued DeleteIngredient s = Some req /\
    url req = recordPath DeleteIngredient (Ingredient.id i) /\
    method req = "DELETE" /\
    payload req = None.
Proof.
  intros Hn Hl Hbefore Hi.
  rewrite issued_firstRequest. simpl.
  destruct (negb _) eqn:Hneg.
  { apply blank_negb in Hneg. congruence. }
  rewrite Hl, (findByName_first Ingredient.name _ before after i Hbefore Hi). simpl.
  by eexists.
Qed.

(** ** Login and logout *)

Lemma filled_negb (id : string) (s : State) :
  Js.allWhiteSpace (value id s) = false ->
  negb (Js.truthy (Js.trim (value id s))) = false.
Proof.
  intros H. destruct (negb _) eqn:Hn; [|done]. apply blank_negb in Hn. congruence.
Qed.

Lemma processLogin_accepted (s : State) (b : backendState) (response : Response) :
  Js.allWhiteSpace (value "login-input" s) = false ->
  Js.allWhiteSpace (value "password-input" s) = false ->
  serve (backend s) (loginRequest (Js.trim (value "login-input" s))
                                  (Js.trim (value "password-input" s)))
    = (b, Responded response) ->
  status response = 200 ->
  sessionStorage (processLogin s)
    = setSession (element 0 (Js.split " " (body response)))
                 (element 1 (Js.split " " (body response))) (sessionStorage s) /\
  href (processLogin s) = Some recipePage /\
  alerts (processLogin s) = alerts s /\
  requests (processLogin s)
    = requests s ++ [loginRequest (Js.trim (value "login-input" s))
                                  (Js.trim (value "password-input" s))] /\
  backend (processLogin s) = b.
Proof.
  intros Hu Hp Hserve Hstatus. unfold processLogin, fetch.
  rewrite (filled_negb _ _ Hu), (filled_negb _ _ Hp), Hserve. simpl.
  rewrite (statusIs_true _ _ Hstatus). by case_decide.
Qed.

(** X7. A login answered 200 stores as token the part of the body before its
    first space (the whole body when it has no space): the stored token has
    no space in it. It then goes to the recipe page without any message. *)
Theorem login_stores_first_field (s : State) (b : backendState) (response : Response) :
  Js.allWhiteSpace (value "login-input" s) = false ->
  Js.allWhiteSpace (value "password-input" s) = false ->
  serve (backend s) (loginRequest (Js.trim (value "login-input" s))
                                  (Js.trim (value "password-input" s)))
    = (b, Responded response) ->
  status response = 200 ->
  exists token,
    getToken (sessionStorage (processLogin s)) = Some token /\
    occurs " " token = false /\
    (body response = token \/ exists rest, body response = token +:+ String " " rest) /\
    href (processLogin s) = Some recipePage /\
    alerts (processLogin s) = alerts s.
Proof.
  intros Hu Hp Hserve Hstatus.
  destruct (processLogin_accepted s b response Hu Hp Hserve Hstatus)
    as (Hstore & Hhref & Halerts & _).
  destruct (split_first_field " " (body response)) as (h & t & Hsplit & Hh & Hbody).
  exists h. rewrite Hstore, Hsplit. split_and!; try done.
  - unfold getToken, setSession, setItem, getItem.
    rewrite lookup_insert_ne; [|done]. apply lookup_insert_eq.
  - destruct Hbody as [[-> _]|(rest & -> & _)]; [by left | right; by exists rest].
Qed.

(** X8. A login answered 200 with a body [token flag], neither with a space
    in it, stores exactly that token and that flag, and the admin test then
    holds exactly when the flag is the text [true]. *)
Theorem login_round_trip (s : State) (b : backendState) (response : Response)
    (token flag : string) :
  Js.allWhiteSpace (value "login-input" s) = false ->
  Js.allWhiteSpace (value "password-input" s) = false ->
  serve (backend s) (loginRequest (Js.trim (value "login-input" s))
                                  (Js.trim (value "password-input" s)))
    = (b, Responded response) ->
  status response = 200 ->
  body response = token +:+ String " " flag ->
  occurs " " token = false ->
  occurs " " flag = false ->
  getToken (sessionStorage (processLogin s)) = Some token /\
  getItem "is-admin" (sessionStorage (processLogin s)) = Some flag /\
  (isAdmin (sessionStorage (processLogin s)) = true <-> flag = "true").
Proof.
  intros Hu Hp Hserve Hstatus Hbody Htoken Hflag.
  destruct (processLogin_accepted s b response Hu Hp Hserve Hstatus) as (-> & _).
  rewrite Hbody, (split_two_fields _ _ _ Htoken Hflag). simpl.
  unfold isAdmin, getToken, setSession, setItem, getItem.
  rewrite lookup_insert_ne; [|done]. rewrite !lookup_insert_eq.
  split_and!; [done | done |]. split.
  - intros H%bool_decide_eq_true. by injection H.
  - intros ->. by apply bool_decide_eq_true.
Qed.


(** ** The requests of a run *)

(** A run sends the first request of the workflow, if any, and after it the
    fetch of the collection when the workflow is a mutation that succeeded. *)
Lemma requests_shape (w : Workflow) (s : State) :
  requests (run w s)
    = requests s ++
      match firstRequest w s with
      | None => []
      | Some req =>
          req :: (if isMutation w && succeeded w s then [collectionRequest w s] else [])
      end.
Proof.
  unfold succeeded, outcome, answer. rewrite issued_firstRequest.
  destruct w; simpl; wf_unfold; unfold fetch; simpl; repeat wf_branch;
    rewrite ?requests_getRecipes, ?requests_getIngredients; simpl;
    rewrite <- ?app_assoc, ?app_nil_r; first [reflexivity | congruence].
Qed.

Lemma firstRequest_authorization (w : Workflow) (s : State) (req : Request) :
  firstRequest w s = Some req ->
  if onProtectedPage w
  then headers req = [("Authorization", bearer s)] \/
       headers req = [("Authorization", bearer s); ("Content-Type", "application/json")] \/
       headers req = [("Content-Type", "application/json"); ("Authorization", bearer s)]
  else forall v, ~ In ("Authorization", v) (headers req).
Proof.
  destruct w; simpl; intros H; repeat wf_branch_in H;
    injection H as <-; simpl; auto;
    intros v Hin; repeat (destruct Hin as [Hin|Hin]; [discriminate Hin|]); done.
Qed.

(** X10. Every request a workflow of the recipe page or of the ingredient
    page sends carries the header [Authorization: Bearer <token>] with the
    token that the session storage holds when the workflow starts ([null]
    without one); the requests of login and registration carry no
    [Authorization] header. *)
Theorem requests_carry_bearer (w : Workflow) (s : State) :
  exists sent,
    requests (run w s) = requests s ++ sent /\
    Forall (fun req =>
              if onProtectedPage w
              then In ("Authorization",
                       "Bearer " +:+ default "null" (getToken (sessionStorage s)))
                      (headers req)
              else forall v, ~ In ("Authorization", v) (headers req))
           sent.
Proof.
  eexists. split; [apply requests_shape|].
  destruct (firstRequest w s) as [req|] eqn:Hfirst; [|constructor].
  pose proof (firstRequest_authorization w s req Hfirst) as Hreq.
  assert (Hcoll : headers (collectionRequest w s) = [("Authorization", bearer s)])
    by by destruct w.
  constructor.
  - destruct (onProtectedPage w); [|exact Hreq].
    destruct Hreq as [-> | [-> | ->]]; simpl; unfold bearer; auto.
  - destruct (isMutation w && succeeded w s) eqn:Hmut; [|constructor].
    constructor; [|constructor].
    destruct w; try discriminate Hmut; simpl; by left.
Qed.

(** X11. A workflow never repeats a request: a run sends at most two
    requests, a failed run at most one, and a second request is always the
    GET of the collection after a mutation whose request succeeded. *)
Theorem no_retry (w : Workflow) (s : State) :
  exists sent,
    requests (run w s) = requests s ++ sent /\
    (List.length sent <= 2)%nat /\
    (failed w s = true -> (List.length sent <= 1)%nat) /\
    (List.length sent = 2%nat ->
     isMutation w = true /\ succeeded w s = true /\
     sent !! 1%nat = Some (collectionRequest w s) /\
     method (collectionRequest w s) = "GET" /\
     payload (collectionRequest w s) = None).
Proof.
  eexists. split; [apply requests_shape|].
  assert (Hfailed : failed w s = true -> succeeded w s = false).
  { unfold failed, succeeded. destruct (outcome w s) as [[]|]; done. }
  destruct (firstRequest w s) as [req|]; simpl.
  - destruct (isMutation w) eqn:Hmut; simpl.
    + destruct (succeeded w s) eqn:Hsucc; simpl; split_and!; try lia; try done.
      * intros H. by specialize (Hfailed H).
      * intros _. by destruct w.
    + split_and!; try lia; done.
  - split_and!; try lia; done.
Qed.

(** ** What a run shows and keeps *)

(** With a backend that answers the fetch of a collection with an array of
    records, no run meets a 2xx body it cannot use. *)
Ltac unusable_body Hrecords :=
  exfalso;
  match goal with
  | Hserve : serve ?b ?req = (_, Responded ?r), Hok : isOk (status ?r) = true,
    Hparse : parseRecipes (body ?r) = None |- _ =>
      apply (proj1 (Hrecords b req _ r Hserve Hok));
      [ split; [reflexivity | first [ by exists "" | by eexists ] ] | exact Hparse ]
  | Hserve : serve ?b ?req = (_, Responded ?r), Hok : isOk (status ?r) = true,
    Hparse : parseIngredients (body ?r) = None |- _ =>
      apply (proj2 (Hrecords b req _ r Hserve Hok)); [ by split | exact Hparse ]
  end.

Lemma getRecipes_alerts (s : State) :
  collectionBodiesAreRecords ->
  alerts (getRecipes s) = alerts s \/ exists msg, alerts (getRecipes s) = alerts s ++ [msg].
Proof.
  intros Hrecords. unfold getRecipes, fetch.
  repeat wf_branch; first [unusable_body Hrecords | eauto].
Qed.

Lemma getIngredients_alerts (s : State) :
  collectionBodiesAreRecords ->
  alerts (getIngredients s) = alerts s \/
  exists msg, alerts (getIngredients s) = alerts s ++ [msg].
Proof.
  intros Hrecords. unfold getIngredients, fetch.
  repeat wf_branch; first [unusable_body Hrecords | eauto].
Qed.

(** X12. Against a backend that answers the fetch of a collection, when it
    answers 2xx, with an array of records, one click shows at most one
    message: after any run of any workflow the messages shown are those shown
    before, or those and one more. *)
Theorem at_most_one_alert (w : Workflow) (s : State) :
  collectionBodiesAreRecords ->
  alerts (run w s) = alerts s \/ exists msg, alerts (run w s) = alerts s ++ [msg].
Proof.
  intros Hrecords.
  destruct w; simpl;
    try (by apply getRecipes_alerts); try (by apply getIngredients_alerts);
    unfold processLogin, processRegistration, addIngredient, deleteIngredient,
      searchRecipes, addRecipe, updateRecipe, deleteRecipe, processLogout, fetch;
    repeat wf_branch;
    first [ unusable_body Hrecords
          | match goal with
            | |- context [getRecipes ?t] => by apply (getRecipes_alerts t)
            | |- context [getIngredients ?t] => by apply (getIngredients_alerts t)
            end
          | eauto ].
Qed.

Lemma getRecipes_inSync (s : State) :
  collectionBodiesAreRecords -> inSync s -> inSync (getRecipes s).
Proof.
  intros Hrecords [Hr Hi]. unfold inSync, getRecipes, fetch.
  repeat wf_branch; first [unusable_body Hrecords | done].
Qed.

Lemma getIngredients_inSync (s : State) :
  collectionBodiesAreRecords -> inSync s -> inSync (getIngredients s).
Proof.
  intros Hrecords [Hr Hi]. unfold inSync, getIngredients, fetch.
  repeat wf_branch; first [unusable_body Hrecords | done].
Qed.

Ltac wf_frames :=
  rewrite ?(proj1 (getRecipes_frame _)), ?(proj1 (getIngredients_frame _)),
    ?(proj1 (proj2 (getRecipes_frame _))), ?(proj1 (proj2 (getIngredients_frame _))),
    ?(proj1 (proj2 (proj2 (proj2 (getRecipes_frame _))))),
    ?(proj2 (proj2 (proj2 (proj2 (getRecipes_frame _))))),
    ?(proj1 (proj2 (proj2 (proj2 (getIngredients_frame _))))),
    ?(proj2 (proj2 (proj2 (proj2 (getIngredients_frame _))))).

(** X13. Against a backend that answers the fetch of a collection, when it
    answers 2xx, with an array of records, the rows of the two lists always
    show the two Mirrors: when the recipe list and the ingredient list are the
    rendering of the Mirrors before a run of any workflow, they are after
    it. *)
Theorem lists_show_mirrors (w : Workflow) (s : State) :
  collectionBodiesAreRecords -> inSync s -> inSync (run w s).
Proof.
  intros Hrecords Hsync.
  destruct w; simpl;
    try (by apply getRecipes_inSync); try (by apply getIngredients_inSync);
    unfold processLogin, processRegistration, addIngredient, deleteIngredient,
      searchRecipes, addRecipe, updateRecipe, deleteRecipe, processLogout, fetch;
    repeat wf_branch;
    first [ unusable_body Hrecords
          | by apply getRecipes_inSync
          | match goal with
            | |- inSync (refreshIngredientList (getIngredients ?t)) =>
                destruct (getIngredients_inSync t Hrecords Hsync) as [Hr' Hi'];
                by split
            | |- inSync (getRecipes ?t) => by apply (getRecipes_inSync t Hrecords)
            end
          | by destruct Hsync; split ].
Qed.

(** X14. A run changes an input only by clearing its own form after its
    request succeeded: an input outside the form of the workflow, and every
    input when the request did not succeed, keeps its value. *)
Theorem inputs_kept (w : Workflow) (s : State) (id : string) :
  ~ In id (clearedInputs w) \/ succeeded w s = false ->
  inputs (run w s) !! id = inputs s !! id.
Proof.
  unfold succeeded, outcome, answer. rewrite issued_firstRequest.
  destruct w; simpl;
    unfold processLogin, processRegistration, addIngredient, deleteIngredient,
      searchRecipes, addRecipe, updateRecipe, deleteRecipe, processLogout;
    try (intros _; by destruct (getRecipes_frame s) as (_ & -> & _));
    try (intros _; by destruct (getIngredients_frame s) as (_ & -> & _));
    unfold fetch; repeat wf_branch; wf_frames; simpl; try done;
    intros [H|H]; try discriminate H;
    rewrite ?lookup_insert_ne; try done; intros <-; apply H; auto.
Qed.

(** X15. Only a login and a logout write the session: every other workflow
    leaves the session storage as it is, and login and logout touch no key
    other than [auth-token] and [is-admin]. *)
Theorem session_written_by_login_logout_only (w : Workflow) (s : State) (key : string) :
  (key <> "auth-token" /\ key <> "is-admin") \/ (w <> ProcessLogin /\ w <> ProcessLogout) ->
  sessionStorage (run w s) !! key = sessionStorage s !! key.
Proof.
  intros H.
  destruct w; simpl;
    unfold processLogin, processRegistration, addIngredient, deleteIngredient,
      searchRecipes, addRecipe, updateRecipe, deleteRecipe, processLogout;
    try (by destruct (getRecipes_frame s) as (-> & _));
    try (by destruct (getIngredients_frame s) as (-> & _));
    unfold fetch; repeat wf_branch; wf_frames; simpl; try done;
    destruct H as [[Ht Ha]|[Hl Ho]]; try done;
    unfold setSession, clearSession, setItem, removeItem;
    by rewrite ?lookup_insert_ne, ?lookup_delete_ne.
Qed.

(** ** Update, delete, search *)

(** X16. An update or a delete sends the request built from its form and the
    resolved record; when that request takes the success branch the workflow
    sets the inputs of its form to the empty string and fetches the collection
    of its page again, whatever that fetch returns. When the fetch is
    answered 2xx with an array of records, the Mirror is that array and the
    list its rendering, whatever they held before, and no message is shown
    and the page stays. *)
Theorem resolved_mutation_then_refetch (w : Workflow) (s : State) (req : Request)
    (b1 : backendState) (changed : Response) :
  resolvesName w = true ->
  firstRequest w s = Some req ->
  serve (backend s) req = (b1, Responded changed) ->
  dispatch (chainOf w) (status changed) = Success ->
  Forall (fun id => inputs (run w s) !! id = Some "") (clearedInputs w) /\
  requests (run w s) = requests s ++ [req; collectionRequest w s] /\
  (forall b2 fetched l,
      w <> DeleteIngredient ->
      serve b1 (collectionRequest w s) = (b2, Responded fetched) ->
      ok fetched = true ->
      parseRecipes (body fetched) = Some l ->
      recipes (run w s) = l /\
      recipeList (run w s)
        = map (fun r => Recipe.name r +:+ ": " +:+ Recipe.instructions r) l /\
      alerts (run w s) = alerts s /\ href (run w s) = href s) /\
  (forall b2 fetched l,
      w = DeleteIngredient ->
      serve b1 (collectionRequest w s) = (b2, Responded fetched) ->
      ok fetched = true ->
      parseIngredients (body fetched) = Some l ->
      ingredients (run w s) = l /\
      ingredientList (run w s) = map Ingredient.name l /\
      alerts (run w s) = alerts s /\ href (run w s) = href s).
Proof.
  intros Hw Hreq Hserve Hsuccess.
  destruct w; try discriminate Hw; simpl in Hreq; unfold chainOf in Hsuccess.
  - (* deleteIngredient *)
    repeat wf_branch_in Hreq. injection Hreq as <-.
    simpl. unfold deleteIngredient, fetch.
    rewrite Hblank, Hfind, Hserve, Hsuccess. simpl. set (s1 := setValue _ _ _).
    destruct (getIngredients_frame s1) as (_ & Hinputs & _).
    split_and!; simpl.
    + repeat constructor. rewrite Hinputs. apply lookup_insert_eq.
    + rewrite requests_getIngredients. simpl. by rewrite <- app_assoc.
    + intros b2 fetched l Hne. by destruct Hne.
    + intros b2 fetched l _ Hrefetch Hok Hparse.
      destruct (getIngredients_success s1 b2 fetched l Hrefetch Hok Hparse)
        as (Hm & _ & Ha & Hh).
      simpl. by rewrite Hm, Ha, Hh.
  - (* updateRecipe *)
    repeat wf_branch_in Hreq. injection Hreq as <-.
    simpl. unfold updateRecipe, fetch.
    rewrite Hblank, Hblank0. simpl orb. cbv iota.
    rewrite Hfind, Hserve, Hsuccess. simpl. set (s1 := setValue _ _ (setValue _ _ _)).
    destruct (getRecipes_frame s1) as (_ & Hinputs & _).
    split_and!.
    + repeat constructor; rewrite Hinputs; simpl.
      * rewrite lookup_insert_ne; [|done]. apply lookup_insert_eq.
      * apply lookup_insert_eq.
    + rewrite requests_getRecipes. simpl. by rewrite <- app_assoc.
    + intros b2 fetched l _ Hrefetch Hok Hparse.
      by destruct (getRecipes_success s1 b2 fetched l Hrefetch Hok Hparse)
        as (-> & -> & -> & ->).
    + intros b2 fetched l Heq. discriminate Heq.
  - (* deleteRecipe *)
    repeat wf_branch_in Hreq. injection Hreq as <-.
    simpl. unfold deleteRecipe, fetch.
    rewrite Hblank, Hfind, Hserve, Hsuccess. simpl. set (s1 := setValue _ _ _).
    destruct (getRecipes_frame s1) as (_ & Hinputs & _).
    split_and!.
    + repeat constructor. rewrite Hinputs. apply lookup_insert_eq.
    + rewrite requests_getRecipes. simpl. by rewrite <- app_assoc.
    + intros b2 fetched l _ Hrefetch Hok Hparse.
      by destruct (getRecipes_success s1 b2 fetched l Hrefetch Hok Hparse)
        as (-> & -> & -> & ->).
    + intros b2 fetched l Heq. discriminate Heq.
Qed.

(** X17. A search with a term sends the term, trimmed and percent-encoded,
    in the [name] parameter. A 2xx answer makes the Mirror and the list the
    recipes found, and a 404 answer makes them empty; in both cases no message
    is shown and the search term stays in its input. *)
Theorem search_replaces_mirror (s : State) (b : backendState) (response : Response)
    (found : list Recipe.t) :
  Js.allWhiteSpace (value "search-input" s) = false ->
  serve (backend s) (searchRecipesRequest (Js.trim (value "search-input" s)) s)
    = (b, Responded response) ->
  (ok response = true /\ parseRecipes (body response) = Some found) \/
  (status response = 404 /\ found = []) ->
  recipes (searchRecipes s) = found /\
  recipeList (searchRecipes s)
    = map (fun r => Recipe.name r +:+ ": " +:+ Recipe.instructions r) found /\
  requests (searchRecipes s)
    = requests s ++ [searchRecipesRequest (Js.trim (value "search-input" s)) s] /\
  url (searchRecipesRequest (Js.trim (value "search-input" s)) s)
    = "http://localhost:8081/recipes?name="
      +:+ Js.encodeURIComponent (Js.trim (value "search-input" s)) /\
  alerts (searchRecipes s) = alerts s /\
  inputs (searchRecipes s) = inputs s.
Proof.
  intros Hterm Hserve Hanswer.
  unfold searchRecipes, fetch. rewrite (filled_negb _ _ Hterm), Hserve. simpl.
  destruct Hanswer as [[Hok Hparse]|[Hstatus ->]].
  - rewrite ok_isOk in Hok. rewrite Hok, Hparse. by simpl.
  - rewrite Hstatus. by simpl.
Qed.

(** ** Loading the recipe page *)


(** X21. After a login answered 200 with a body [token true], the token not
    empty and without a space, the recipe page shows the logout button and
    the admin link and asks for the recipes with that token. *)
Theorem admin_login_then_recipe_page (s : State) (b : backendState) (response : Response)
    (token : string) :
  Js.allWhiteSpace (value "login-input" s) = false ->
  Js.allWhiteSpace (value "password-input" s) = false ->
  serve (backend s) (loginRequest (Js.trim (value "login-input" s))
                                  (Js.trim (value "password-input" s)))
    = (b, Responded response) ->
  status response = 200 ->
  body response = token +:+ " true" ->
  token <> "" ->
  occurs " " token = false ->
  display (recipePageLoad (processLogin s)) !! "logout-button" = Some "block" /\
  display (recipePageLoad (processLogin s)) !! "admin-link" = Some "block" /\
  requests (recipePageLoad (processLogin s))
    = requests s ++ [loginRequest (Js.trim (value "login-input" s))
                                  (Js.trim (value "password-input" s));
                     mkRequest "http://localhost:8081/recipes" "GET" []
                       [("Authorization", "Bearer " +:+ token)] None].
Proof.
  intros Hu Hp Hserve Hstatus Hbody Hne Htoken.
  destruct (processLogin_accepted s b response Hu Hp Hserve Hstatus)
    as (Hstore & _ & _ & Hreq & _).
  rewrite Hbody in Hstore.
  change (token +:+ " true") with (token +:+ String " " "true") in Hstore.
  rewrite (split_two_fields " " token "true" Htoken eq_refl) in Hstore.
  simpl in Hstore.
  assert (Htok : getToken (sessionStorage (processLogin s)) = Some token).
  { rewrite Hstore. unfold getToken, setSession, setItem, getItem.
    rewrite lookup_insert_ne; [|done]. apply lookup_insert_eq. }
  assert (Hadmin : isAdmin (sessionStorage (processLogin s)) = true).
  { rewrite Hstore. unfold isAdmin, setSession, setItem, getItem.
    apply bool_decide_eq_true. apply lookup_insert_eq. }
  unfold recipePageLoad. cbv zeta.
  set (s1 := if isAdmin _ then _ else _).
  destruct (getRecipes_frame s1) as (_ & _ & Hdisplay & _).
  rewrite Hdisplay, requests_getRecipes.
  assert (Hs1 : s1 = show "admin-link" (show "logout-button"
                                          (setRecipes [] (processLogin s)))).
  { unfold s1. simpl. rewrite Htok. simpl.
    destruct token; [done|]. simpl. by rewrite Hadmin. }
  rewrite Hs1. simpl. split_and!.
  - rewrite lookup_insert_ne; [|done]. apply lookup_insert_eq.
  - apply lookup_insert_eq.
  - rewrite Hreq. rewrite <- app_assoc. simpl. do 3 f_equal.
    unfold getRecipesRequest, bearer. simpl. by rewrite Htok.
Qed.

(** ** Success statuses and the second rendering *)

(** X22. The statuses a workflow takes as success: login only 200,
    registration and the two add workflows only 201, the ingredient delete
    only 200 and 204, and every other workflow any 2xx. *)
Theorem success_statuses (w : Workflow) (st : Z) :
  dispatch (chainOf w) st = Success <-> successStatus w st.
Proof.
  destruct w; simpl; unfold statusIs, isOk;
    repeat match goal with
      | |- context [?a =? ?b] => destruct (Z.eqb_spec a b); simpl
      | |- context [(200 <=? st) && (st <=? 299)] =>
          destruct (200 <=? st) eqn:?, (st <=? 299) eqn:?; simpl
      end;
    split; intros; try done; try lia; auto.
Qed.

(** X23. The add and delete workflows of the ingredient page render the list
    a second time after [getIngredients] has rendered it. On a page whose
    list shows the Mirror, and unless the fetch is answered 2xx with a body
    that is no array of records, that second rendering changes nothing. *)
Theorem second_rendering_redundant (s : State) :
  (forall b response,
      serve (backend s) (getIngredientsRequest s) = (b, Responded response) ->
      ok response = true ->
      parseIngredients (body response) <> None) ->
  ingredientList s = map Ingredient.name (ingredients s) ->
  refreshIngredientList (getIngredients s) = getIngredients s.
Proof.
  intros Hrecords H. unfold getIngredients, fetch.
  destruct (serve _ _) as [b [|response]] eqn:Hserve; simpl.
  { unfold refreshIngredientList. simpl. by rewrite <- H. }
  destruct (isOk (status response)) eqn:Hok; simpl.
  - destruct (parseIngredients (body response)) as [l|] eqn:Hparse; [done|].
    by destruct (Hrecords b response eq_refl Hok).
  - destruct (statusIs 401 _); unfold refreshIngredientList; simpl; by rewrite <- H.
Qed.

End Further.

(** * The further properties on sample states *)

Lemma blank_input_rejected_login :
  Js.allWhiteSpace
    (value "password-input"
       (loginPageTyped {["login-input" := "alice"; "password-input" := "  "]} [])) = true /\
  run ProcessLogin (loginPageTyped {["login-input" := "alice"; "password-input" := "  "]} [])
    = alert "Please enter both username and password"
        (loginPageTyped {["login-input" := "alice"; "password-input" := "  "]} []).
Proof.
  split; [by vm_compute|].
  apply (blank_input_rejected ProcessLogin
           (loginPageTyped {["login-input" := "alice"; "password-input" := "  "]} [])
           "password-input").
  - simpl. right. by left.
  - by vm_compute.
Defined.


Lemma unknown_name_rejected_stew :
  run DeleteRecipe (recipePageNaming "Stew" [pancakes; soup] [])
    = alert "Recipe not found" (recipePageNaming "Stew" [pancakes; soup] []).
Proof.
  apply (unknown_name_rejected DeleteRecipe (recipePageNaming "Stew" [pancakes; soup] [])).
  - reflexivity.
  - simpl. repeat constructor; by vm_compute.
  - simpl. intros [H|[H|[]]]; by vm_compute in H.
Defined.

Lemma recipe_duplicates_first_targeted_soup :
  exists req,
    issued DeleteRecipe (recipePageNaming "Soup" [pancakes; soup; soup'] []) = Some req /\
    url req = "http://localhost:8081/recipes/2" /\
    method req = "DELETE".
Proof.
  apply (recipe_duplicates_first_targeted DeleteRecipe
           (recipePageNaming "Soup" [pancakes; soup; soup'] []) [pancakes] [soup'] soup).
  - by right.
  - simpl. repeat constructor; by vm_compute.
  - reflexivity.
  - repeat constructor. by vm_compute.
  - by vm_compute.
Defined.

Lemma ingredient_duplicates_first_targeted_salt :
  exists req,
    issued DeleteIngredient (ingredientPageDuplicates []) = Some req /\
    url req = "http://localhost:8081/ingredients/1" /\
    method req = "DELETE" /\
    payload req = None.
Proof.
  apply (ingredient_duplicates_first_targeted (ingredientPageDuplicates [])
           [pepper] [salt'] salt).
  - by vm_compute.
  - reflexivity.
  - repeat constructor. by vm_compute.
  - by vm_compute.
Defined.

Lemma login_stores_first_field_sample :
  exists token,
    getToken (sessionStorage
                (processLogin (loginPageTyped loginForm
                                 [Responded (mkResponse 200 "tok true extra")])))
      = Some token /\
    occurs " " token = false /\
    ("tok true extra" = token \/ exists rest, "tok true extra" = token +:+ String " " rest) /\
    href (processLogin (loginPageTyped loginForm
                          [Responded (mkResponse 200 "tok true extra")]))
      = Some recipePage /\
    alerts (processLogin (loginPageTyped loginForm
                            [Responded (mkResponse 200 "tok true extra")])) = [].
Proof.
  apply (login_stores_first_field
           (loginPageTyped loginForm [Responded (mkResponse 200 "tok true extra")])
           [] (mkResponse 200 "tok true extra")); by vm_compute.
Defined.

Lemma login_round_trip_sample :
  getToken (sessionStorage
              (processLogin (loginPageTyped loginForm
                               [Responded (mkResponse 200 "tok false")])))
    = Some "tok" /\
  getItem "is-admin"
    (sessionStorage (processLogin (loginPageTyped loginForm
                                     [Responded (mkResponse 200 "tok false")])))
    = Some "false" /\
  (isAdmin (sessionStorage
              (processLogin (loginPageTyped loginForm
                               [Responded (mkResponse 200 "tok false")]))) = true
   <-> "false" = "true").
Proof.
  apply (login_round_trip
           (loginPageTyped loginForm [Responded (mkResponse 200 "tok false")])
           [] (mkResponse 200 "tok false") "tok" "false"); by vm_compute.
Defined.


Lemma pantry_bodies_are_records : @collectionBodiesAreRecords pantry.
Proof.
  intros b req b' response Hserve Hok. simpl in Hserve. unfold pantryServe in Hserve.
  destruct (bool_decide_reflect (method req = "GET")) as [Hget|Hget].
  - destruct (bool_decide_reflect (url req = "http://localhost:8081/ingredients"))
      as [Hurl|Hurl]; injection Hserve as _ <-; split.
    + intros [_ [rest Hrest]]. rewrite Hurl in Hrest. simpl in Hrest. discriminate Hrest.
    + intros _. by vm_compute.
    + intros _. by vm_compute.
    + by intros [_ Hu].
  - injection Hserve as _ <-. split; by intros [Hm _].
Defined.

Lemma at_most_one_alert_pantry :
  alerts (run AddIngredient pantryIngredientPage) = alerts pantryIngredientPage \/
  exists msg,
    alerts (run AddIngredient pantryIngredientPage) = alerts pantryIngredientPage ++ [msg].
Proof.
  exact (at_most_one_alert AddIngredient pantryIngredientPage pantry_bodies_are_records).
Defined.

Lemma lists_show_mirrors_after_add :
  inSync pantryRecipePage /\
  recipeList (run AddRecipe pantryRecipePage) = ["Pancakes: Mix and fry"] /\
  inSync (run AddRecipe pantryRecipePage).
Proof.
  assert (H : inSync pantryRecipePage) by by vm_compute.
  split; [exact H|]. split; [by vm_compute|].
  exact (lists_show_mirrors AddRecipe pantryRecipePage pantry_bodies_are_records H).
Defined.

Lemma inputs_kept_search_term :
  inputs (run AddRecipe (recipePageWith (createdThen "[pancakes,soup]"))) !! "search-input"
    = Some "Sou" /\
  inputs (run AddRecipe (recipePageWith (answered 500))) !! "add-recipe-name-input"
    = Some " Soup ".
Proof.
  split.
  - rewrite (inputs_kept AddRecipe (recipePageWith (createdThen "[pancakes,soup]"))
               "search-input"); [by vm_compute|].
    left. simpl. intros [H|[H|[]]]; discriminate H.
  - rewrite (inputs_kept AddRecipe (recipePageWith (answered 500))
               "add-recipe-name-input"); [by vm_compute|].
    right. by vm_compute.
Defined.

Lemma session_kept_by_add :
  sessionStorage (run AddRecipe (recipePageWith (createdThen "[pancakes,soup]")))
    !! "auth-token" = Some "abc".
Proof.
  rewrite (session_written_by_login_logout_only AddRecipe
             (recipePageWith (createdThen "[pancakes,soup]")) "auth-token");
    [by vm_compute|].
  right. by split.
Defined.

Lemma resolved_mutation_then_refetch_soup :
  Forall (fun id =>
            inputs (run DeleteRecipe
                      (recipePageNaming "Soup" [pancakes; soup]
                         [Responded (mkResponse 204 "");
                          Responded (mkResponse 200 "[pancakes]")])) !! id = Some "")
         (clearedInputs DeleteRecipe) /\
  requests (run DeleteRecipe
              (recipePageNaming "Soup" [pancakes; soup]
                 [Responded (mkResponse 204 ""); Responded (mkResponse 200 "[pancakes]")]))
    = [mkRequest "http://localhost:8081/recipes/2" "DELETE" []
         [("Authorization", "Bearer abc")] None;
       mkRequest "http://localhost:8081/recipes" "GET" []
         [("Authorization", "Bearer abc")] None] /\
  recipes (run DeleteRecipe
             (recipePageNaming "Soup" [pancakes; soup]
                [Responded (mkResponse 204 ""); Responded (mkResponse 200 "[pancakes]")]))
    = [pancakes].
Proof.
  destruct (resolved_mutation_then_refetch DeleteRecipe
              (recipePageNaming "Soup" [pancakes; soup]
                 [Responded (mkResponse 204 ""); Responded (mkResponse 200 "[pancakes]")])
              (deleteRecipeRequest soup
                 (recipePageNaming "Soup" [pancakes; soup]
                    [Responded (mkResponse 204 "");
                     Responded (mkResponse 200 "[pancakes]")]))
              [Responded (mkResponse 200 "[pancakes]")] (mkResponse 204 ""))
    as (Hinputs & Hrequests & Hrecipes & _); [by vm_compute .. |].
  destruct (Hrecipes [] (mkResponse 200 "[pancakes]") [pancakes])
    as (Hmirror & _); [done | by vm_compute .. |].
  split_and!; [exact Hinputs | exact Hrequests | exact Hmirror].
Defined.

Lemma search_replaces_mirror_sample :
  recipes (searchRecipes (recipePageWith [Responded (mkResponse 200 "[pancakes,soup]")]))
    = [pancakes; soup] /\
  recipes (searchRecipes (recipePageWith (answered 404))) = [] /\
  inputs (searchRecipes (recipePageWith (answered 404)))
    = inputs (recipePageWith (answered 404)).
Proof.
  destruct (search_replaces_mirror
              (recipePageWith [Responded (mkResponse 200 "[pancakes,soup]")]) []
              (mkResponse 200 "[pancakes,soup]") [pancakes; soup])
    as (Hfound & _); [by vm_compute | by vm_compute | left; by vm_compute |].
  destruct (search_replaces_mirror (recipePageWith (answered 404)) []
              (mkResponse 404 "") [])
    as (Hnone & _ & _ & _ & _ & Hinputs);
    [by vm_compute | by vm_compute | right; by vm_compute |].
  by split_and!.
Defined.

Lemma encodeURIComponent_unreserved_soup :
  allChars Js.isUnreserved "Soup_(2)" = true /\
  Js.encodeURIComponent "Soup_(2)" = "Soup_(2)".
Proof.
  split; [by vm_compute|].
  apply encodeURIComponent_unreserved. by vm_compute.
Defined.

Lemma admin_login_then_recipe_page_sample :
  display (recipePageLoad
             (processLogin (loginPageTyped loginForm
                              [Responded (mkResponse 200 "tok true");
                               Responded (mkResponse 200 "[]")]))) !! "logout-button"
    = Some "block" /\
  display (recipePageLoad
             (processLogin (loginPageTyped loginForm
                              [Responded (mkResponse 200 "tok true");
                               Responded (mkResponse 200 "[]")]))) !! "admin-link"
    = Some "block".
Proof.
  destruct (admin_login_then_recipe_page
              (loginPageTyped loginForm [Responded (mkResponse 200 "tok true");
                                         Responded (mkResponse 200 "[]")])
              [Responded (mkResponse 200 "[]")] (mkResponse 200 "tok true") "tok")
    as (Hlogout & Hadmin & _); [by vm_compute .. |].
  by split.
Defined.

Lemma second_rendering_redundant_salt :
  refreshIngredientList
    (getIngredients (ingredientPageWith [Responded (mkResponse 200 "[salt]")]))
    = getIngredients (ingredientPageWith [Responded (mkResponse 200 "[salt]")]).
Proof.
  apply (second_rendering_redundant
           (ingredientPageWith [Responded (mkResponse 200 "[salt]")])).
  - intros b response Hserve _. injection Hserve as _ <-. by vm_compute.
  - by vm_compute.
Defined.
